(** * IResearchLink: the link between a collection and an iResearch view

    A shallow embedding of [arangod/IResearch/IResearchLink.cpp].

    The link forwards document mutations to a view, remembers the view's id
    across [unload], and compares and serialises its definition.  The code
    talks to several collaborators that live in other translation units
    (velocypack documents, the link metadata, the view, the collection and its
    database, the task queue); these are taken as interfaces (type classes)
    and every statement below holds for all their implementations, including
    ones that throw.  A small reference implementation instantiates the
    interfaces so that the model can be run on concrete definitions. *)

From Stdlib Require Import ZArith List String Bool Lia DecimalString.
Import ListNotations.
Local Open Scope string_scope.
Local Open Scope Z_scope.

Set Implicit Arguments.
Set Warnings "-register-all".

(** ** Results of calls that may throw *)

(** What a C++ exception carries, as far as this file can tell:
    [std_runtime_error] is the one the link throws itself (batchInsert);
    [foreign_exception] stands for anything thrown by a collaborator. *)
Inductive Exception : Type :=
| std_runtime_error (what : string)
| foreign_exception (what : string).

Inductive Outcome (A : Type) : Type :=
| Returned (a : A)
| Thrown (e : Exception).

Arguments Returned {A} a.
Arguments Thrown {A} e.

(** Sequencing of calls that may throw: the first exception ends the
    computation. *)
Definition Outcome_bind {A B : Type} (c : Outcome A) (k : A -> Outcome B) : Outcome B :=
  match c with
  | Returned a => k a
  | Thrown e => Thrown e
  end.

Declare Scope outcome_scope.
Delimit Scope outcome_scope with outcome.

Notation "x <- c ;; k" := (Outcome_bind c (fun x => k))
  (at level 100, c at next level, right associativity) : outcome_scope.
Notation "' pat <- c ;; k" := (Outcome_bind c (fun x => match x with pat => k end))
  (at level 100, pat pattern, c at next level, right associativity) : outcome_scope.

(** ** Machine integers *)

(** [uint64_t(x)]: conversion of a signed 64-bit value to unsigned. *)
Definition two64 : Z := 2 ^ 64.
Definition INT64_MIN : Z := - 2 ^ 63.
Definition INT64_MAX : Z := 2 ^ 63 - 1.
Definition UINT64_MAX : Z := 2 ^ 64 - 1.
Definition uint64_t (x : Z) : Z := x mod two64.

Definition is_int64 (x : Z) : Prop := INT64_MIN <= x <= INT64_MAX.
Definition is_uint64 (x : Z) : Prop := 0 <= x <= UINT64_MAX.

(** [std::to_string] / [StringUtils::itoa] on an unsigned value. *)
Definition to_string (n : Z) : string :=
  NilZero.string_of_uint (N.to_uint (Z.to_N n)).

(** ** The constants of the anonymous namespace (lines 39-59) *)

Definition LINK_TYPE : string := "iresearch".
Definition LINK_TYPE_FIELD : string := "type".
Definition SKIP_VIEW_REGISTRATION_FIELD : string := "skipViewRegistration".
Definition VIEW_ID_FIELD : string := "view".

(** ** Error numbers

    The numeric values come from the error table of the server, which is not
    part of this translation unit; they are a parameter. *)
Class ErrorCodes : Type := {
  TRI_ERROR_NO_ERROR : Z;
  TRI_ERROR_INTERNAL : Z;
  TRI_ERROR_BAD_PARAMETER : Z;
  TRI_ERROR_ARANGO_COLLECTION_NOT_LOADED : Z;
  TRI_ERROR_ARANGO_VIEW_NOT_FOUND : Z
}.

(** [arangodb::Result], built from an error number by its converting
    constructor. *)
Record Result : Type := mkResult { errorNumber : Z }.

(** ** velocypack: documents and builders *)

(** The argument of [Builder::add]: [VPackValue(...)] of a string, of an
    unsigned integer, of a bool, or an already built slice. *)
Inductive VPackValue (S : Type) : Type :=
| ValueString (s : string)
| ValueUInt (n : Z)
| ValueBool (b : bool)
| ValueSlice (s : S).

Arguments ValueString {S} s.
Arguments ValueUInt {S} n.
Arguments ValueBool {S} b.
Arguments ValueSlice {S} s.

(** The accessors of [VPackSlice] and the operations of [VPackBuilder] the
    link uses.  Accessors that inspect the type of the slice may throw; the
    integer accessors return values of their C++ return types ([int64_t],
    [uint64_t]), and where both return they return the same number.  The
    operations of the builder are taken as total. *)
Class VelocyPack : Type := {
  VPackSlice : Type;
  VPackBuilder : Type;
  hasKey : VPackSlice -> string -> Outcome bool;
  get : VPackSlice -> string -> Outcome VPackSlice;
  isNumber : VPackSlice -> bool;
  getInt : VPackSlice -> Outcome Z;
  getUInt : VPackSlice -> Outcome Z;
  getInt_int64 : forall s i, getInt s = Returned i -> is_int64 i;
  getUInt_uint64 : forall s u, getUInt s = Returned u -> is_uint64 u;
  (** both accessors read the one number the slice stores *)
  getInt_getUInt : forall s i u, getInt s = Returned i -> getUInt s = Returned u -> i = u;
  newBuilder : VPackBuilder;
  isOpenObject : VPackBuilder -> bool;
  openObject : VPackBuilder -> VPackBuilder;
  close : VPackBuilder -> VPackBuilder;
  add : string -> VPackValue VPackSlice -> VPackBuilder -> VPackBuilder;
  slice : VPackBuilder -> VPackSlice
}.

(** ** The collaborators: metadata, view, collection, database, queue *)

Class Collaborators `{VelocyPack} : Type := {
  (** [IResearchLinkMeta] *)
  IResearchLinkMeta : Type;
  (** [meta.init(slice, error)]: success flag, the parsed metadata and the
      name of the offending field *)
  meta_init : VPackSlice -> Outcome (bool * IResearchLinkMeta * string);
  (** [operator==] of the metadata *)
  meta_eq : IResearchLinkMeta -> IResearchLinkMeta -> bool;
  (** [meta.json(builder)] *)
  meta_json : IResearchLinkMeta -> VPackBuilder -> bool * VPackBuilder;
  (** handles of the objects the link points to *)
  IResearchView : Type;
  LogicalView : Type;
  TRI_vocbase_t : Type;
  LogicalCollection : Type;
  Methods : Type;         (* transaction::Methods *)
  LocalTaskQueue : Type;
  (** [IResearchView::id()] and the static [IResearchView::type()] *)
  view_id : IResearchView -> Z;
  (** "0 is never a valid id" (line 94) *)
  view_id_nonzero : forall view, view_id view <> 0;
  IResearchView_type : string;
  (** [LogicalView::type()], [LogicalView::getImplementation()] *)
  logicalView_type : LogicalView -> string;
  getImplementation : LogicalView -> option IResearchView;
  (** [LogicalCollection::vocbase()], [LogicalCollection::cid()] *)
  vocbase : LogicalCollection -> option TRI_vocbase_t;
  cid : LogicalCollection -> Z
}.

(** ** The link object *)

Section Link.

Context {VP : VelocyPack} {CO : Collaborators} {EC : ErrorCodes}.

(** The members of [IResearchLink] (with those inherited from [Index] that
    this file touches).  Pointers are nullable: [option]. *)
Record IResearchLink : Type := mkLink {
  _iid : Z;
  _collection : option LogicalCollection;
  _unique : bool;
  _sparse : bool;
  _defaultId : Z;
  _meta : IResearchLinkMeta;
  _view : option IResearchView
}.

Definition set_defaultId (l : IResearchLink) (d : Z) : IResearchLink :=
  mkLink (_iid l) (_collection l) (_unique l) (_sparse l) d (_meta l) (_view l).

Definition set_view (l : IResearchLink) (v : option IResearchView) : IResearchLink :=
  mkLink (_iid l) (_collection l) (_unique l) (_sparse l) (_defaultId l) (_meta l) v.

(** The constructor, lines 89-99. *)
Definition IResearchLink_ctor (iid : Z) (collection : option LogicalCollection)
    (meta : IResearchLinkMeta) : IResearchLink :=
  {| _iid := iid;
     _collection := collection;
     _unique := false;   (* cannot be unique since multiple fields are indexed *)
     _sparse := true;    (* always sparse *)
     _defaultId := 0;    (* 0 is never a valid id *)
     _meta := meta;
     _view := None |}.

Definition id (l : IResearchLink) : Z := _iid l.

Definition typeName : string := LINK_TYPE.

(** ** Observable effects *)

Inductive LogTopic : Type := FIXME | DEVEL.

(** Every call that leaves the link is recorded, in order. *)
Inductive Event : Type :=
| EvLog (topic : LogTopic)
| EvSetErrno (code : Z)
| EvLookupView (db : TRI_vocbase_t) (viewId : Z)
| EvLinkRegister (view : IResearchView) (iid : Z)
| EvViewInsert (view : IResearchView) (trx : Methods) (cid rid : Z) (doc : VPackSlice)
| EvViewInsertBatch (view : IResearchView) (trx : Methods) (cid : Z)
    (batch : list (Z * VPackSlice))
| EvViewRemove (view : IResearchView) (trx : Methods) (cid rid : Z)
| EvViewDrop (view : IResearchView) (cid : Z)
| EvSetStatus (queue : LocalTaskQueue) (status : Z).

Definition is_lookup (ev : Event) : bool :=
  match ev with EvLookupView _ _ => true | _ => false end.

Definition is_view_call (ev : Event) : bool :=
  match ev with
  | EvViewInsert _ _ _ _ _ | EvViewInsertBatch _ _ _ _
  | EvViewRemove _ _ _ _ | EvViewDrop _ _ | EvLinkRegister _ _ => true
  | _ => false
  end.

Definition is_setStatus (ev : Event) : bool :=
  match ev with EvSetStatus _ _ => true | _ => false end.

(** The stateful collaborators.  [World] is whatever state they keep (the
    view's index, the database's catalogue, the queue's status); each call
    may change it and may throw. *)
Class Externals : Type := {
  World : Type;
  lookupView : TRI_vocbase_t -> Z -> World -> Outcome (option LogicalView) * World;
  view_linkRegister : IResearchView -> IResearchLink -> World -> Outcome bool * World;
  view_insert : IResearchView -> Methods -> Z -> Z -> VPackSlice ->
                IResearchLinkMeta -> World -> Outcome Z * World;
  view_insert_batch : IResearchView -> Methods -> Z -> list (Z * VPackSlice) ->
                IResearchLinkMeta -> World -> Outcome Z * World;
  view_remove : IResearchView -> Methods -> Z -> Z -> World -> Outcome Z * World;
  view_drop : IResearchView -> Z -> World -> Outcome Z * World;
  queue_setStatus : LocalTaskQueue -> Z -> World -> Outcome unit * World;
  (** [Index::toVelocyPackFigures], inherited; it reports figures that depend
      on the state of the view *)
  toVelocyPackFigures : IResearchLink -> World -> VPackBuilder -> VPackBuilder
}.

Context {EX : Externals}.

(** ** The state-and-exception monad the methods run in *)

Record State : Type := mkState { world : World; trace : list Event }.

Definition M (A : Type) : Type := State -> Outcome A * State.

(** A [noexcept] function: it returns, whatever happens. *)
Definition NoExcept (A : Type) : Type := State -> A * State.

Definition ret {A : Type} (a : A) : M A := fun s => (Returned a, s).

Definition bind {A B : Type} (c : M A) (k : A -> M B) : M B :=
  fun s =>
    match c s with
    | (Returned a, s') => k a s'
    | (Thrown e, s') => (Thrown e, s')
    end.

Declare Scope cxx_scope.
Delimit Scope cxx_scope with cxx.

Notation "x <- c ;; k" := (bind c (fun x => k))
  (at level 100, c at next level, right associativity) : cxx_scope.
Notation "' pat <- c ;; k" := (bind c (fun x => match x with pat => k end))
  (at level 100, pat pattern, c at next level, right associativity) : cxx_scope.
Notation "c ;;; k" := (bind c (fun _ => k))
  (at level 100, right associativity) : cxx_scope.

Local Open Scope cxx_scope.

Definition lift {A : Type} (o : Outcome A) : M A := fun s => (o, s).

Definition throw {A : Type} (e : Exception) : M A := fun s => (Thrown e, s).

Definition emit (ev : Event) : M unit :=
  fun s => (Returned tt, mkState (world s) (trace s ++ [ev])%list).

Definition extern {A : Type} (ev : Event) (f : World -> Outcome A * World) : M A :=
  fun s => let (r, w) := f (world s) in (r, mkState w (trace s ++ [ev])%list).

(** [try { body } catch (...) { handler }] around a function body. *)
Definition try_catch {A : Type} (body : M A) (handler : Exception -> NoExcept A)
  : NoExcept A :=
  fun s =>
    match body s with
    | (Returned a, s') => (a, s')
    | (Thrown e, s') => handler e s'
    end.

Definition LOG_TOPIC (topic : LogTopic) : M unit := emit (EvLog topic).
Definition TRI_set_errno (code : Z) : M unit := emit (EvSetErrno code).
Definition setStatus (queue : LocalTaskQueue) (status : Z) : M unit :=
  extern (EvSetStatus queue status) (queue_setStatus queue status).

(** ** Identifier validation

    The test [identifier.isNumber() && uint64_t(identifier.getInt()) ==
    identifier.getUInt()] of lines 217, 234 and 281, with the short circuit
    of [&&].  The two accessors are evaluated left to right here; C++ leaves
    the order open, and only the exception that comes out depends on it. *)
Definition isValidIdentifier (identifier : VPackSlice) : Outcome bool :=
  (if isNumber identifier then
     i <- getInt identifier ;;
     u <- getUInt identifier ;;
     Returned (uint64_t i =? u)
   else Returned false)%outcome.

(** ** Forwarding mutations to the view *)

(** [batchInsert], lines 121-147. *)
Definition batchInsert (l : IResearchLink) (trx : option Methods)
    (batch : list (Z * VPackSlice)) (queue : option LocalTaskQueue) : M unit :=
  match queue with
  | None =>
      throw (std_runtime_error
        ("failed to report status during batch insert for iResearch link '"
         ++ to_string (id l) ++ "'")%string)
  | Some q =>
      match _collection l, _view l with
      | Some collection, Some view =>
          match trx with
          | None => setStatus q TRI_ERROR_BAD_PARAMETER  (* 'trx' required *)
          | Some t =>
              res <- extern (EvViewInsertBatch view t (cid collection) batch)
                       (view_insert_batch view t (cid collection) batch (_meta l)) ;;
              if negb (TRI_ERROR_NO_ERROR =? res) then setStatus q res
              else ret tt
          end
      | _, _ =>
          (* '_collection' and '_view' required *)
          setStatus q TRI_ERROR_ARANGO_COLLECTION_NOT_LOADED
      end
  end.

(** [drop], lines 153-159. *)
Definition drop (l : IResearchLink) : M Z :=
  match _collection l, _view l with
  | Some collection, Some view =>
      extern (EvViewDrop view (cid collection)) (view_drop view (cid collection))
  | _, _ => ret TRI_ERROR_ARANGO_COLLECTION_NOT_LOADED
  end.

(** [insert], lines 169-184. *)
Definition insert (l : IResearchLink) (trx : option Methods) (rid : Z)
    (doc : VPackSlice) (isRollback : bool) : M Result :=
  match _collection l, _view l with
  | Some collection, Some view =>
      match trx with
      | None => ret (mkResult TRI_ERROR_BAD_PARAMETER)  (* 'trx' required *)
      | Some t =>
          res <- extern (EvViewInsert view t (cid collection) rid doc)
                   (view_insert view t (cid collection) rid doc (_meta l)) ;;
          ret (mkResult res)
      end
  | _, _ => ret (mkResult TRI_ERROR_ARANGO_COLLECTION_NOT_LOADED)
  end.

(** [remove], lines 307-323. *)
Definition remove (l : IResearchLink) (trx : option Methods) (rid : Z)
    (doc : VPackSlice) (isRollback : bool) : M Result :=
  match _collection l, _view l with
  | Some collection, Some view =>
      match trx with
      | None => ret (mkResult TRI_ERROR_BAD_PARAMETER)  (* 'trx' required *)
      | Some t =>
          (* remove documents matching on cid and rid *)
          res <- extern (EvViewRemove view t (cid collection) rid)
                   (view_remove view t (cid collection) rid) ;;
          ret (mkResult res)
      end
  | _, _ => ret (mkResult TRI_ERROR_ARANGO_COLLECTION_NOT_LOADED)
  end.

(** ** Construction *)

(** Modelled from the spec: [IResearchView::linkRegister], defined with the
    view and not in this file.  The view decides whether the registration
    succeeds; "only on that call's success does the link retain the view
    reference", and the call site (line 251) says: on success this call will
    set the '_view' pointer. *)
Definition linkRegister (view : IResearchView) (link : IResearchLink)
  : M (bool * IResearchLink) :=
  ok <- extern (EvLinkRegister view (id link)) (view_linkRegister view link) ;;
  ret (ok, if ok then set_view link (Some view) else link).

(** The tail of the [try] block of [make], lines 262-263 and 270, reached
    whenever one of the conditions of lines 230 and 234 fails. *)
Definition make_view_not_found : M (option IResearchLink) :=
  LOG_TOPIC FIXME ;;;
  TRI_set_errno TRI_ERROR_ARANGO_VIEW_NOT_FOUND ;;;
  ret None.

(** The [try] block of [make], lines 200-263. *)
Definition make_try (iid : Z) (collection : option LogicalCollection)
    (definition : VPackSlice) : M (option IResearchLink) :=
  '(ok, meta, error) <- lift (meta_init definition) ;;
  if negb ok then
    LOG_TOPIC FIXME ;;;
    TRI_set_errno TRI_ERROR_BAD_PARAMETER ;;;
    ret None  (* failed to parse metadata *)
  else
    let ptr := IResearchLink_ctor iid collection meta in
    skip <- lift (hasKey definition SKIP_VIEW_REGISTRATION_FIELD) ;;
    if skip then
      hasView <- lift (hasKey definition VIEW_ID_FIELD) ;;
      if hasView then
        identifier <- lift (get definition VIEW_ID_FIELD) ;;
        valid <- lift (isValidIdentifier identifier) ;;
        if negb valid then
          LOG_TOPIC FIXME ;;;
          TRI_set_errno TRI_ERROR_BAD_PARAMETER ;;;
          ret None
        else
          defaultId <- lift (getUInt identifier) ;;
          ret (Some (set_defaultId ptr defaultId))
      else ret (Some ptr)
    else
      match collection with
      | None => make_view_not_found
      | Some c =>
          hasView <- lift (hasKey definition VIEW_ID_FIELD) ;;
          if hasView then
            identifier <- lift (get definition VIEW_ID_FIELD) ;;
            match vocbase c with
            | None => make_view_not_found
            | Some db =>
                valid <- lift (isValidIdentifier identifier) ;;
                if valid then
                  viewId <- lift (getUInt identifier) ;;
                  logicalView <- extern (EvLookupView db viewId) (lookupView db viewId) ;;
                  match logicalView with
                  | None => ret None  (* no such view *)
                  | Some lv =>
                      if negb (String.eqb IResearchView_type (logicalView_type lv))
                      then ret None  (* no such view *)
                      else
                        match getImplementation lv with
                        | None => LOG_TOPIC FIXME ;;; ret None
                        | Some view =>
                            '(registered, ptr') <- linkRegister view ptr ;;
                            if negb registered then LOG_TOPIC FIXME ;;; ret None
                            else ret (Some ptr')
                        end
                  end
                else make_view_not_found
            end
          else make_view_not_found
      end.

(** [make], lines 194-271: both handlers log and fall through to
    [return nullptr]. *)
Definition make (iid : Z) (collection : option LogicalCollection)
    (definition : VPackSlice) : NoExcept (option IResearchLink) :=
  try_catch (make_try iid collection definition)
    (fun e s => (None, mkState (world s) (trace s ++ [EvLog DEVEL])%list)).

(** ** Comparing and serialising the definition *)

(** [matchesDefinition], lines 273-292.  It is not [noexcept]: what the
    accessors throw, it throws. *)
Definition matchesDefinition (l : IResearchLink) (slice : VPackSlice) : Outcome bool :=
  (let compare_meta : Outcome bool :=
     '(ok, other, errorField) <- meta_init slice ;;
     Returned (ok && meta_eq (_meta l) other) in
   hasView <- hasKey slice VIEW_ID_FIELD ;;
   if hasView then
     match _view l with
     | None => Returned false  (* slice has identifier but the current object does not *)
     | Some view =>
         identifier <- get slice VIEW_ID_FIELD ;;
         valid <- isValidIdentifier identifier ;;
         if negb valid then Returned false
         else
           u <- getUInt identifier ;;
           if negb (u =? view_id view) then Returned false
           else compare_meta
     end
   else
     match _view l with
     | Some _ => Returned false  (* slice has no 'name' but the current object does *)
     | None => compare_meta
     end)%outcome.

(** [toVelocyPack], lines 360-388.  The two assertions are compiled out of
    release builds and are not modelled; [w] is the state of the world the
    figures are read from. *)
Definition toVelocyPack (l : IResearchLink) (builder : VPackBuilder)
    (withFigures forPersistence : bool) (w : World) : VPackBuilder :=
  let builder := openObject builder in
  let (success, builder) := meta_json (_meta l) builder in
  let builder := add "id" (ValueString (to_string (_iid l))) builder in
  let builder := add LINK_TYPE_FIELD (ValueString typeName) builder in
  let builder :=
    match _view l with
    | Some view => add VIEW_ID_FIELD (ValueUInt (view_id view)) builder
    | None =>
        if negb (_defaultId l =? 0)  (* '0' _defaultId == no view name in source jSON *)
        then add VIEW_ID_FIELD (ValueUInt (_defaultId l)) builder
        else builder
    end in
  let builder :=
    if withFigures then
      let figuresBuilder := newBuilder in
      let figuresBuilder := openObject figuresBuilder in
      let figuresBuilder := toVelocyPackFigures l w figuresBuilder in
      let figuresBuilder := close figuresBuilder in
      add "figures" (ValueSlice (slice figuresBuilder)) builder
    else builder in
  close builder.

(** [load], lines 399-403. *)
Definition load (l : IResearchLink) : Z := TRI_ERROR_NO_ERROR.

(** [unload], lines 405-413. *)
Definition unload (l : IResearchLink) : Z * IResearchLink :=
  let l :=
    match _view l with
    | Some view => set_defaultId l (view_id view)  (* remember view ID just in case *)
    | None => l
    end in
  let l := set_view l None in  (* release reference to the iResearch View *)
  (TRI_ERROR_NO_ERROR, l).

(** ** Comparison with a view *)

(** [operator==(IResearchView const&)], lines 101-103, and its negation,
    lines 105-107. *)
Definition operator_eq_view (l : IResearchLink) (view : IResearchView) : bool :=
  match _view l with
  | Some v => view_id v =? view_id view
  | None => false
  end.

Definition operator_ne_view (l : IResearchLink) (view : IResearchView) : bool :=
  negb (operator_eq_view l view).

(** ** Enhancing a definition *)

(** [Builder::add] and [meta.json] can throw: both stand inside the [try]
    of [EnhanceJsonIResearchLink], whose handlers (lines 435-439) report an
    "error serializaing view link parameters to json".  [add] and
    [meta_json] say what the two do when they return; this says when they
    throw instead, what they throw, and how they leave the builder. *)
Class BuilderFailures : Type := {
  add_throws : string -> VPackValue VPackSlice -> VPackBuilder ->
               option (Exception * VPackBuilder);
  meta_json_throws : IResearchLinkMeta -> VPackBuilder ->
                     option (Exception * VPackBuilder)
}.

Context {BF : BuilderFailures}.

(** Code that fills a builder passed by reference: the builder is part of
    the state, and is what the callee made of it also when it throws. *)
Definition Filling (A : Type) : Type :=
  VPackBuilder -> State -> Outcome A * VPackBuilder * State.

Definition Filling_ret {A : Type} (a : A) : Filling A :=
  fun b s => (Returned a, b, s).

Definition Filling_bind {A B : Type} (c : Filling A) (k : A -> Filling B) : Filling B :=
  fun b s =>
    match c b s with
    | (Returned a, b', s') => k a b' s'
    | (Thrown e, b', s') => (Thrown e, b', s')
    end.

Declare Scope filling_scope.
Delimit Scope filling_scope with filling.

Notation "x <- c ;; k" := (Filling_bind c (fun x => k))
  (at level 100, c at next level, right associativity) : filling_scope.
Notation "' pat <- c ;; k" := (Filling_bind c (fun x => match x with pat => k end))
  (at level 100, pat pattern, c at next level, right associativity) : filling_scope.
Notation "c ;;; k" := (Filling_bind c (fun _ => k))
  (at level 100, right associativity) : filling_scope.

Definition Filling_lift {A : Type} (o : Outcome A) : Filling A :=
  fun b s => (o, b, s).

Definition Filling_log (topic : LogTopic) : Filling unit :=
  fun b s => (Returned tt, b, mkState (world s) (trace s ++ [EvLog topic])%list).

(** [builder.add(key, value)] *)
Definition builder_add (key : string) (value : VPackValue VPackSlice) : Filling unit :=
  fun b s =>
    match add_throws key value b with
    | Some (e, b') => (Thrown e, b', s)
    | None => (Returned tt, add key value b, s)
    end.

(** [meta.json(builder)] *)
Definition builder_json (meta : IResearchLinkMeta) : Filling bool :=
  fun b s =>
    match meta_json_throws meta b with
    | Some (e, b') => (Thrown e, b', s)
    | None => (Returned (fst (meta_json meta b)), snd (meta_json meta b), s)
    end.

(** The [try] block of [EnhanceJsonIResearchLink], lines 421-434. *)
Definition EnhanceJsonIResearchLink_try (definition : VPackSlice) (create : bool)
  : Filling Z :=
  ('(ok, meta, error) <- Filling_lift (meta_init definition) ;;
   if negb ok then
     Filling_log FIXME ;;;
     Filling_ret TRI_ERROR_BAD_PARAMETER
   else
     hasView <- Filling_lift (hasKey definition VIEW_ID_FIELD) ;;
     (if hasView then
        identifier <- Filling_lift (get definition VIEW_ID_FIELD) ;;
        (* copy over iResearch View identifier *)
        builder_add VIEW_ID_FIELD (ValueSlice identifier)
      else Filling_ret tt) ;;;
     success <- builder_json meta ;;
     Filling_ret (if success then TRI_ERROR_NO_ERROR else TRI_ERROR_BAD_PARAMETER)
  )%filling.

(** [EnhanceJsonIResearchLink], lines 415-442.  Both handlers log and fall
    through to [return TRI_ERROR_INTERNAL]; the builder stays as the code
    that threw left it.  The result is the error number with the builder. *)
Definition EnhanceJsonIResearchLink (definition : VPackSlice)
    (builder : VPackBuilder) (create : bool) : NoExcept (Z * VPackBuilder) :=
  fun s =>
    match EnhanceJsonIResearchLink_try definition create builder s with
    | (Returned code, b, s') => ((code, b), s')
    | (Thrown e, b, s') =>
        ((TRI_ERROR_INTERNAL, b), mkState (world s') (trace s' ++ [EvLog FIXME])%list)
    end.

(** ** Memory *)

(** Arithmetic on [size_t] (64 bits) wraps around. *)
Definition size_t (x : Z) : Z := x mod two64.

(** What [memory] reads: [sizeof(IResearchLink)], [IResearchLinkMeta::memory],
    [IResearchView::memory] and [IResearchView::linkCount]; the last two
    depend on the state of the view.  All are [size_t] values. *)
Class Footprint : Type := {
  sizeof_IResearchLink : Z;
  meta_memory : IResearchLinkMeta -> Z;
  view_memory : IResearchView -> World -> Z;
  view_linkCount : IResearchView -> World -> Z;
  sizeof_nonneg : 0 <= sizeof_IResearchLink;
  meta_memory_nonneg : forall meta, 0 <= meta_memory meta;
  view_memory_nonneg : forall view w, 0 <= view_memory view w
}.

Context {FP : Footprint}.

(** [memory], lines 294-305. *)
Definition memory (l : IResearchLink) (w : World) : Z :=
  let size := sizeof_IResearchLink in  (* includes empty members from parent *)
  let size := size_t (size + meta_memory (_meta l)) in
  match _view l with
  | Some view =>
      (* <iResearch View size> / <number of link instances> *)
      size_t (size + view_memory view w / Z.max 1 (view_linkCount view w))
  | None => size
  end.

End Link.

(** * The vocabulary of the statements *)

Unset Implicit Arguments.

Section Vocabulary.

Context {VP : VelocyPack} {CO : Collaborators} {EC : ErrorCodes} {EX : Externals}.

(** The link is bound when both its collection and its view are there. *)
Definition bound (l : IResearchLink) : Prop :=
  exists c v, _collection l = Some c /\ _view l = Some v.

(** The link is unbound when its view or its collection is missing. *)
Definition unbound (l : IResearchLink) : Prop :=
  _view l = None \/ _collection l = None.

(** What a forwarded call leaves behind: the view's answer converted to a
    [Result], the world as the view left it, and one more event. *)
Definition forwarded (ev : Event) (answer : Outcome Z * World) (s : State)
  : Outcome Result * State :=
  (match fst answer with
   | Returned res => Returned (mkResult res)
   | Thrown e => Thrown e
   end,
   mkState (snd answer) (trace s ++ [ev])).

(** The events a run of [batchInsert] on a bound link with a transaction
    adds to the trace, given the view's answer. *)
Definition batch_events (ev : Event) (q : LocalTaskQueue) (answer : Outcome Z) : list Event :=
  ev :: match answer with
        | Returned res => if res =? TRI_ERROR_NO_ERROR then [] else [EvSetStatus q res]
        | Thrown _ => []
        end.

(** The candidate's view id and the link's view agree: both absent, or both
    present and the candidate's is a non-negative integer equal to the id of
    the view the link is bound to. *)
Definition view_agrees (l : IResearchLink) (candidate : VPackSlice) : Prop :=
  (hasKey candidate VIEW_ID_FIELD = Returned false /\ _view l = None) \/
  (hasKey candidate VIEW_ID_FIELD = Returned true /\
   exists view identifier n,
     _view l = Some view /\
     get candidate VIEW_ID_FIELD = Returned identifier /\
     isNumber identifier = true /\
     getInt identifier = Returned n /\ getUInt identifier = Returned n /\
     0 <= n /\ n = view_id view).

(** The candidate's metadata parses and equals the link's. *)
Definition meta_agrees (l : IResearchLink) (candidate : VPackSlice) : Prop :=
  exists other errorField,
    meta_init candidate = Returned (true, other, errorField) /\
    meta_eq (_meta l) other = true.

(** The view id the definition document shall carry: the id of the bound
    view if there is one, else the remembered id unless it is 0. *)
Definition serialized_view_id (l : IResearchLink) : option Z :=
  match _view l with
  | Some view => Some (view_id view)
  | None => if _defaultId l =? 0 then None else Some (_defaultId l)
  end.

(** The parts of the document [toVelocyPack] writes around the view id. *)
Definition definition_head (l : IResearchLink) (builder : VPackBuilder) : VPackBuilder :=
  add LINK_TYPE_FIELD (ValueString typeName)
    (add "id" (ValueString (to_string (_iid l)))
       (snd (meta_json (_meta l) (openObject builder)))).

(** Writing the view field, if there is an id to write. *)
Definition write_view_id (viewId : option Z) (builder : VPackBuilder) : VPackBuilder :=
  match viewId with
  | Some n => add VIEW_ID_FIELD (ValueUInt n) builder
  | None => builder
  end.

(** Writing the figures, if they are asked for. *)
Definition write_figures (l : IResearchLink) (withFigures : bool) (w : World)
    (builder : VPackBuilder) : VPackBuilder :=
  if withFigures then
    add "figures"
      (ValueSlice (slice (close (toVelocyPackFigures l w (openObject newBuilder)))))
      builder
  else builder.

(** What can be done to a link once it exists: the methods of this file and
    the registration by a view. *)
Inductive Operation : Type :=
| OpInsert (trx : option Methods) (rid : Z) (doc : VPackSlice) (isRollback : bool)
| OpRemove (trx : option Methods) (rid : Z) (doc : VPackSlice) (isRollback : bool)
| OpBatchInsert (trx : option Methods) (batch : list (Z * VPackSlice))
    (queue : option LocalTaskQueue)
| OpDrop
| OpLoad
| OpUnload
| OpMatchesDefinition (candidate : VPackSlice)
| OpToVelocyPack (builder : VPackBuilder) (withFigures forPersistence : bool)
| OpLinkRegister (view : IResearchView).

(** One operation: the link and the state afterwards (results dropped; an
    operation that throws leaves the link as it was). *)
Definition apply_op (op : Operation) (l : IResearchLink) (s : State)
  : IResearchLink * State :=
  match op with
  | OpInsert trx rid doc isRollback => (l, snd (insert l trx rid doc isRollback s))
  | OpRemove trx rid doc isRollback => (l, snd (remove l trx rid doc isRollback s))
  | OpBatchInsert trx batch queue => (l, snd (batchInsert l trx batch queue s))
  | OpDrop => (l, snd (drop l s))
  | OpLoad => (l, s)
  | OpUnload => (snd (unload l), s)
  | OpMatchesDefinition candidate => (l, s)
  | OpToVelocyPack builder withFigures forPersistence => (l, s)
  | OpLinkRegister view =>
      match linkRegister view l s with
      | (Returned (_, l'), s') => (l', s')
      | (Thrown _, s') => (l, s')
      end
  end.

(** A sequence of operations, one after the other. *)
Fixpoint run_ops (ops : list Operation) (l : IResearchLink) (s : State)
  : IResearchLink * State :=
  match ops with
  | [] => (l, s)
  | op :: rest => let (l', s') := apply_op op l s in run_ops rest l' s'
  end.

(** The flags inherited from [Index]: not unique, sparse. *)
Definition index_flags (l : IResearchLink) : Prop :=
  _unique l = false /\ _sparse l = true.

(** A builder with one object in the making: a fresh builder in which an
    object was opened and into which, since then, attributes were added and
    metadata written. *)
Inductive fresh_object : VPackBuilder -> Prop :=
| fresh_open : fresh_object (openObject newBuilder)
| fresh_add (k : string) (v : VPackValue VPackSlice) (b : VPackBuilder) :
    fresh_object b -> fresh_object (add k v b)
| fresh_json (m : IResearchLinkMeta) (b : VPackBuilder) :
    fresh_object b -> fresh_object (snd (meta_json m b)).

(** The contract of the document layer and of the metadata's serialisation,
    both defined outside this file, as far as reading a definition back
    needs it: a closed object has the keys that were added to it and no
    others; an unsigned integer added under a new key is read back under
    that key, by [getUInt] always and by [getInt] if it fits; the metadata
    does not write the view field, parses back from what it wrote to a value
    equal to itself, and its parser ignores the attributes the link adds. *)
Class DocumentLaws : Prop := {
  hasKey_open : forall k,
    hasKey (slice (close (openObject newBuilder))) k = Returned false;
  hasKey_add_same : forall k v b,
    fresh_object b -> hasKey (slice (close (add k v b))) k = Returned true;
  hasKey_add_other : forall k k' v b,
    fresh_object b -> k <> k' ->
    hasKey (slice (close (add k' v b))) k = hasKey (slice (close b)) k;
  get_add_other : forall k k' v b,
    fresh_object b -> k <> k' ->
    get (slice (close (add k' v b))) k = get (slice (close b)) k;
  get_add_uint : forall k n b,
    fresh_object b -> hasKey (slice (close b)) k = Returned false ->
    is_uint64 n ->
    exists identifier,
      get (slice (close (add k (ValueUInt n) b))) k = Returned identifier /\
      isNumber identifier = true /\
      getUInt identifier = Returned n /\
      (n <= INT64_MAX -> getInt identifier = Returned n);
  meta_json_keeps_view : forall m b,
    fresh_object b ->
    hasKey (slice (close (snd (meta_json m b)))) VIEW_ID_FIELD
    = hasKey (slice (close b)) VIEW_ID_FIELD;
  meta_round_trip : forall m,
    exists m' e,
      meta_init (slice (close (snd (meta_json m (openObject newBuilder)))))
      = Returned (true, m', e) /\
      meta_eq m m' = true;
  meta_init_add_other : forall k v b,
    fresh_object b ->
    In k ["id"; LINK_TYPE_FIELD; VIEW_ID_FIELD; "figures"] ->
    meta_init (slice (close (add k v b))) = meta_init (slice (close b))
}.

(** The events of [evs] contain no database lookup and no call to a view. *)
Definition no_lookup_no_view_call (evs : list Event) : Prop :=
  existsb is_lookup evs = false /\ existsb is_view_call evs = false.

(** The database and the view id [make] looks up for a definition without
    skip marker: the database of the collection and the identifier under
    "view", if both are there and the identifier passes the check. *)
Definition lookup_target (collection : option LogicalCollection)
    (definition : VPackSlice) : option (TRI_vocbase_t * Z) :=
  match collection with
  | None => None
  | Some c =>
      match vocbase c, get definition VIEW_ID_FIELD with
      | Some db, Returned identifier =>
          match isValidIdentifier identifier, getUInt identifier with
          | Returned true, Returned viewId => Some (db, viewId)
          | _, _ => None
          end
      | _, _ => None
      end
  end.

(** The builder after the view id of the definition, if it has one, was
    copied into it. *)
Definition copy_view_id (definition : VPackSlice) (builder : VPackBuilder)
  : VPackBuilder :=
  match hasKey definition VIEW_ID_FIELD, get definition VIEW_ID_FIELD with
  | Returned true, Returned identifier =>
      add VIEW_ID_FIELD (ValueSlice identifier) builder
  | _, _ => builder
  end.

(** What [add] throws, if it throws, when the view id of the definition is
    copied into the builder; nothing if there is no view id to copy. *)
Definition copy_throws {BF : BuilderFailures} (definition : VPackSlice)
    (builder : VPackBuilder) : option (Exception * VPackBuilder) :=
  match hasKey definition VIEW_ID_FIELD, get definition VIEW_ID_FIELD with
  | Returned true, Returned identifier =>
      add_throws VIEW_ID_FIELD (ValueSlice identifier) builder
  | _, _ => None
  end.

(** Calls to the database or to a view, among the events of a run. *)
Definition is_call (ev : Event) : bool := is_lookup ev || is_view_call ev.

Definition is_errno (ev : Event) : bool :=
  match ev with EvSetErrno _ => true | _ => false end.

Definition is_log (ev : Event) : bool :=
  match ev with EvLog _ => true | _ => false end.

(** The operations of [ops] do not include a registration by a view. *)
Definition no_registration (ops : list Operation) : bool :=
  forallb (fun op => match op with OpLinkRegister _ => false | _ => true end) ops.

(** The members of a link that identify it. *)
Definition identity (l : IResearchLink)
  : Z * option LogicalCollection * IResearchLinkMeta :=
  (_iid l, _collection l, _meta l).

(** The calls to the database and to views in a list of events are none, one
    lookup, or one lookup followed by one registration of link [iid]. *)
Definition lookup_then_register (iid : Z) (evs : list Event) : Prop :=
  filter is_call evs = [] \/
  (exists db viewId, filter is_call evs = [EvLookupView db viewId]) \/
  (exists db viewId view,
     filter is_call evs = [EvLookupView db viewId; EvLinkRegister view iid]).

(** The answer for a definition whose metadata parses and whose view id, if
    any, can be read: the metadata is written after the copied view id, and
    the error number says whether [meta.json] succeeded. *)
Definition enhanced (meta : IResearchLinkMeta) (definition : VPackSlice)
    (builder : VPackBuilder) : Z * VPackBuilder :=
  (if fst (meta_json meta (copy_view_id definition builder))
   then TRI_ERROR_NO_ERROR else TRI_ERROR_BAD_PARAMETER,
   snd (meta_json meta (copy_view_id definition builder))).

End Vocabulary.

(** ** A reference implementation of the collaborators

    A document store, a metadata type, a database catalogue and a view that
    records what it is told: enough to run the link on concrete inputs. *)

Module Reference.

(** Documents: the values a slice can point to. *)
Inductive Doc : Type :=
| DNone
| DNull
| DBool (b : bool)
| DInt (z : Z)
| DUInt (n : Z)
| DString (s : string)
| DArray (items : list Doc)
| DObject (attributes : list (string * Doc)).

Definition lookup (k : string) (attributes : list (string * Doc)) : option Doc :=
  match find (fun p => String.eqb (fst p) k) attributes with
  | Some p => Some (snd p)
  | None => None
  end.

Definition doc_hasKey (d : Doc) (k : string) : Outcome bool :=
  match d with
  | DObject attributes =>
      Returned (match lookup k attributes with Some _ => true | None => false end)
  | _ => Thrown (foreign_exception "Expecting type Object")
  end.

Definition doc_get (d : Doc) (k : string) : Outcome Doc :=
  match d with
  | DObject attributes =>
      Returned (match lookup k attributes with Some v => v | None => DNone end)
  | _ => Thrown (foreign_exception "Expecting type Object")
  end.

Definition doc_isNumber (d : Doc) : bool :=
  match d with
  | DInt _ | DUInt _ => true
  | _ => false
  end.

Definition doc_getInt (d : Doc) : Outcome Z :=
  match d with
  | DInt z =>
      if (INT64_MIN <=? z) && (z <=? INT64_MAX) then Returned z
      else Thrown (foreign_exception "Number out of range")
  | DUInt n =>
      if (0 <=? n) && (n <=? INT64_MAX) then Returned n
      else Thrown (foreign_exception "Number out of range")
  | _ => Thrown (foreign_exception "Expecting type Int")
  end.

Definition doc_getUInt (d : Doc) : Outcome Z :=
  match d with
  | DUInt n =>
      if (0 <=? n) && (n <=? UINT64_MAX) then Returned n
      else Thrown (foreign_exception "Number out of range")
  | DInt z =>
      if (0 <=? z) && (z <=? INT64_MAX) then Returned z
      else Thrown (foreign_exception "Number out of range")
  | _ => Thrown (foreign_exception "Expecting type UInt")
  end.

(** A builder: the value built so far and the object being filled. *)
Record DocBuilder : Type := mkBuilder {
  built : Doc;
  open : option (list (string * Doc))
}.

Definition doc_of_value (v : VPackValue Doc) : Doc :=
  match v with
  | ValueString s => DString s
  | ValueUInt n => DUInt n
  | ValueBool b => DBool b
  | ValueSlice d => d
  end.

Definition doc_add (k : string) (v : VPackValue Doc) (b : DocBuilder) : DocBuilder :=
  match open b with
  | Some attributes => mkBuilder (built b) (Some (attributes ++ [(k, doc_of_value v)])%list)
  | None => b
  end.

Definition doc_close (b : DocBuilder) : DocBuilder :=
  match open b with
  | Some attributes => mkBuilder (DObject attributes) None
  | None => b
  end.

Lemma doc_getInt_int64 (d : Doc) (i : Z) : doc_getInt d = Returned i -> is_int64 i.
Proof.
  unfold is_int64, INT64_MIN, INT64_MAX.
  destruct d; simpl; try discriminate.
  - destruct (Z.leb_spec INT64_MIN z), (Z.leb_spec z INT64_MAX); simpl; try discriminate.
    unfold INT64_MIN, INT64_MAX in *. intros [= <-]. lia.
  - destruct (Z.leb_spec 0 n), (Z.leb_spec n INT64_MAX); simpl; try discriminate.
    unfold INT64_MAX in *. intros [= <-]. lia.
Qed.

Lemma doc_getUInt_uint64 (d : Doc) (u : Z) : doc_getUInt d = Returned u -> is_uint64 u.
Proof.
  unfold is_uint64, UINT64_MAX.
  destruct d; simpl; try discriminate.
  - destruct (Z.leb_spec 0 z), (Z.leb_spec z INT64_MAX); simpl; try discriminate.
    unfold INT64_MAX in *. intros [= <-]. lia.
  - destruct (Z.leb_spec 0 n), (Z.leb_spec n UINT64_MAX); simpl; try discriminate.
    unfold UINT64_MAX in *. intros [= <-]. lia.
Qed.

Lemma doc_getInt_getUInt (d : Doc) (i u : Z) :
  doc_getInt d = Returned i -> doc_getUInt d = Returned u -> i = u.
Proof.
  destruct d; simpl; try discriminate.
  - destruct ((INT64_MIN <=? z) && (z <=? INT64_MAX)), ((0 <=? z) && (z <=? INT64_MAX));
      congruence.
  - destruct ((0 <=? n) && (n <=? INT64_MAX)), ((0 <=? n) && (n <=? UINT64_MAX));
      congruence.
Qed.

#[export] Instance velocypack : VelocyPack := {
  VPackSlice := Doc;
  VPackBuilder := DocBuilder;
  hasKey := doc_hasKey;
  get := doc_get;
  isNumber := doc_isNumber;
  getInt := doc_getInt;
  getUInt := doc_getUInt;
  getInt_int64 := doc_getInt_int64;
  getUInt_uint64 := doc_getUInt_uint64;
  getInt_getUInt := doc_getInt_getUInt;
  newBuilder := mkBuilder DNone None;
  isOpenObject := fun b => match open b with Some _ => true | None => false end;
  openObject := fun b => mkBuilder (built b) (Some []);
  close := doc_close;
  add := doc_add;
  slice := built
}.

(** Metadata: the names of the indexed fields, under the key "fields". *)
Fixpoint field_names (items : list Doc) : option (list string) :=
  match items with
  | [] => Some []
  | DString s :: rest =>
      match field_names rest with
      | Some names => Some (s :: names)
      | None => None
      end
  | _ => None
  end.

Definition fields_init (d : Doc) : Outcome (bool * list string * string) :=
  match d with
  | DObject attributes =>
      match lookup "fields" attributes with
      | None => Returned (true, [], "")
      | Some (DArray items) =>
          match field_names items with
          | Some names => Returned (true, names, "")
          | None => Returned (false, [], "fields")
          end
      | Some _ => Returned (false, [], "fields")
      end
  | _ => Returned (false, [], "")
  end.

Definition fields_eq (a b : list string) : bool :=
  if list_eq_dec string_dec a b then true else false.

Definition fields_json (m : list string) (b : DocBuilder) : bool * DocBuilder :=
  (true, doc_add "fields" (ValueSlice (DArray (map DString m))) b).

(** A view is known by its id, which is positive; a logical view by its type
    and implementation; a database by its catalogue of views; a collection
    by its id and database. *)
Definition Catalogue : Type := list (Z * (string * option positive)).

Record Collection : Type := mkCollection {
  collection_id : Z;
  collection_db : option Catalogue
}.

Lemma pos_id_nonzero (view : positive) : Z.pos view <> 0.
Proof. discriminate. Qed.

#[export] Instance collaborators : Collaborators := {
  IResearchLinkMeta := list string;
  meta_init := fields_init;
  meta_eq := fields_eq;
  meta_json := fields_json;
  IResearchView := positive;
  LogicalView := string * option positive;
  TRI_vocbase_t := Catalogue;
  LogicalCollection := Collection;
  Methods := unit;
  LocalTaskQueue := unit;
  view_id := Z.pos;
  view_id_nonzero := pos_id_nonzero;
  IResearchView_type := "iresearch";
  logicalView_type := fst;
  getImplementation := snd;
  vocbase := collection_db;
  cid := collection_id
}.

#[export] Instance errors : ErrorCodes := {
  TRI_ERROR_NO_ERROR := 0;
  TRI_ERROR_INTERNAL := 4;
  TRI_ERROR_BAD_PARAMETER := 10;
  TRI_ERROR_ARANGO_COLLECTION_NOT_LOADED := 1238;
  TRI_ERROR_ARANGO_VIEW_NOT_FOUND := 1211
}.

(** The state of the reference world: which link is registered with which
    view, which documents the views hold, and the status of the queue. *)
Record Store : Type := mkStore {
  registered : list (Z * Z);       (* view id, link id *)
  documents : list (Z * Z * Z);    (* view id, collection id, revision id *)
  status : Z
}.

Definition same_pair (p q : Z * Z) : bool :=
  (fst p =? fst q) && (snd p =? snd q).

Definition store_lookupView (db : Catalogue) (viewId : Z)
    (w : Store) : Outcome (option (string * option positive)) * Store :=
  (Returned (match find (fun p => fst p =? viewId) db with
             | Some p => Some (snd p)
             | None => None
             end), w).

(** Registration fails for a link that is already registered. *)
Definition store_linkRegister (view : positive) (link : IResearchLink) (w : Store)
  : Outcome bool * Store :=
  if existsb (same_pair (Z.pos view, _iid link)) (registered w) then (Returned false, w)
  else (Returned true,
        mkStore ((Z.pos view, _iid link) :: registered w) (documents w) (status w)).

(** The view refuses revision 0. *)
Definition store_insert (view : positive) (trx : unit) (cid rid : Z) (doc : Doc)
    (meta : list string) (w : Store) : Outcome Z * Store :=
  if rid =? 0 then (Returned 4, w)
  else (Returned 0, mkStore (registered w) ((Z.pos view, cid, rid) :: documents w) (status w)).

Definition store_insert_batch (view : positive) (trx : unit) (cid : Z)
    (batch : list (Z * Doc)) (meta : list string) (w : Store) : Outcome Z * Store :=
  if existsb (fun p => fst p =? 0) batch then (Returned 4, w)
  else (Returned 0,
        mkStore (registered w)
                (map (fun p => (Z.pos view, cid, fst p)) batch ++ documents w)%list (status w)).

Definition store_remove (view : positive) (trx : unit) (cid rid : Z) (w : Store)
  : Outcome Z * Store :=
  (Returned 0,
   mkStore (registered w)
           (filter (fun d => negb ((fst (fst d) =? Z.pos view) && (snd (fst d) =? cid)
                                   && (snd d =? rid))) (documents w))
           (status w)).

Definition store_drop (view : positive) (cid : Z) (w : Store) : Outcome Z * Store :=
  (Returned 0,
   mkStore (registered w)
           (filter (fun d => negb ((fst (fst d) =? Z.pos view) && (snd (fst d) =? cid)))
                   (documents w))
           (status w)).

Definition store_setStatus (queue : unit) (st : Z) (w : Store) : Outcome unit * Store :=
  (Returned tt, mkStore (registered w) (documents w) st).

#[export] Instance externals : Externals := {
  World := Store;
  lookupView := store_lookupView;
  view_linkRegister := store_linkRegister;
  view_insert := store_insert;
  view_insert_batch := store_insert_batch;
  view_remove := store_remove;
  view_drop := store_drop;
  queue_setStatus := store_setStatus;
  toVelocyPackFigures := fun l w b =>
    doc_add "memory" (ValueUInt (Z.of_nat (List.length (documents w)))) b
}.

(** A database holding view 5 of the right type and view 6 of another type;
    a collection in it; an empty world. *)
Definition db : Catalogue :=
  [(5, ("iresearch", Some 5%positive)); (6, ("logger", Some 6%positive))].
Definition coll : Collection := mkCollection 42 (Some db).
Definition s0 : State := mkState (mkStore [] [] 0) [].

(** Two definitions: one naming view 5, one deferred and naming view 9; and
    the links [make] builds from them. *)
Definition def_view5 : Doc :=
  DObject [("type", DString "iresearch"); ("view", DUInt 5);
           ("fields", DArray [DString "a"])].

Definition def_deferred9 : Doc :=
  DObject [("type", DString "iresearch"); ("skipViewRegistration", DBool true);
           ("view", DUInt 9)].

(** View 6 is not an iResearch view; there is no view 7; -1 is no id. *)
Definition def_view6 : Doc := DObject [("view", DUInt 6)].
Definition def_view7 : Doc := DObject [("view", DUInt 7)].
Definition def_negative : Doc := DObject [("view", DInt (-1))].

(** A collection without database. *)
Definition coll_detached : Collection := mkCollection 43 None.

Definition link_view5 : IResearchLink :=
  set_view (IResearchLink_ctor 1 (Some coll) ["a"]) (Some 5%positive).

Definition link_deferred9 : IResearchLink :=
  set_defaultId (IResearchLink_ctor 1 (Some coll) []) 9.

(** A view whose id does not fit a signed 64-bit integer, and a link bound
    to it. *)
Definition huge_view : positive := (2 ^ 63)%positive.

Definition link_huge : IResearchLink :=
  set_view (IResearchLink_ctor 1 (Some coll) ["a"]) (Some huge_view).

(** A link fresh from the constructor. *)
Definition link_fresh : IResearchLink := IResearchLink_ctor 1 (Some coll) ["a"].

(** The state [make] leaves after binding [link_view5]. *)
Definition s1 : State :=
  mkState (mkStore [(5, 1)] [] 0) [EvLookupView db 5; EvLinkRegister 5%positive 1].

(** Some operations on a link, one after the other. *)
Definition sample_ops : list (Operation (CO := collaborators)) :=
  [OpInsert (Some tt) 7 DNull false; OpUnload; OpLinkRegister 5%positive; OpDrop].

(** The footprint of the reference objects: 128 bytes for a link, 8 per
    indexed field, 64 per document a view holds; a view counts the links
    registered with it. *)
Definition store_linkCount (view : positive) (w : Store) : Z :=
  Z.of_nat (List.length (filter (fun p => fst p =? Z.pos view) (registered w))).

Lemma fields_memory_nonneg (m : list string) : 0 <= 8 * Z.of_nat (List.length m).
Proof. lia. Qed.

Lemma store_memory_nonneg (view : positive) (w : Store) :
  0 <= 64 * Z.of_nat (List.length (documents w)).
Proof. lia. Qed.

Lemma link_size_nonneg : 0 <= 128.
Proof. lia. Qed.

#[export] Instance footprint : Footprint := {
  sizeof_IResearchLink := 128;
  meta_memory := fun m => 8 * Z.of_nat (List.length m);
  view_memory := fun view w => 64 * Z.of_nat (List.length (documents w));
  view_linkCount := store_linkCount;
  sizeof_nonneg := link_size_nonneg;
  meta_memory_nonneg := fields_memory_nonneg;
  view_memory_nonneg := store_memory_nonneg
}.

(** A world in which view 5 holds three documents for two links. *)
Definition w_shared : Store :=
  mkStore [(5, 1); (5, 2)] [(5, 42, 7); (5, 42, 8); (5, 44, 9)] 0.

(** A definition without view id and one whose metadata does not parse. *)
Definition def_no_view : Doc := DObject [("fields", DArray [DString "a"])].
Definition def_bad_fields : Doc := DObject [("view", DUInt 5); ("fields", DNull)].

(** An open object to be filled. *)
Definition open_builder : DocBuilder := mkBuilder DNone (Some []).

(** More definitions: a view id that is not a number, and a deferred
    definition naming view 0. *)
Definition def_view_name : Doc := DObject [("view", DString "five")].
Definition def_deferred0 : Doc :=
  DObject [("skipViewRegistration", DBool true); ("view", DUInt 0)].

(** Operations that do not register the link with a view. *)
Definition quiet_ops : list (Operation (CO := collaborators)) :=
  [OpInsert (Some tt) 7 DNull false; OpBatchInsert (Some tt) [(8, DNull)] (Some tt);
   OpUnload; OpDrop; OpRemove None 7 DNull true; OpLoad].

(** A second set of collaborators, whose metadata parser throws on anything
    but an object and whose world does nothing. *)
Definition strict_init (d : Doc) : Outcome (bool * list string * string) :=
  match d with
  | DObject _ => fields_init d
  | _ => Thrown (foreign_exception "Expecting type Object")
  end.

Definition strict_collaborators : Collaborators := {|
  IResearchLinkMeta := list string;
  meta_init := strict_init;
  meta_eq := fields_eq;
  meta_json := fields_json;
  IResearchView := positive;
  LogicalView := string * option positive;
  TRI_vocbase_t := Catalogue;
  LogicalCollection := Collection;
  Methods := unit;
  LocalTaskQueue := unit;
  view_id := Z.pos;
  view_id_nonzero := pos_id_nonzero;
  IResearchView_type := "iresearch";
  logicalView_type := fst;
  getImplementation := snd;
  vocbase := collection_db;
  cid := collection_id
|}.

Definition idle_externals : Externals (CO := strict_collaborators) := {|
  World := unit;
  lookupView := fun _ _ w => (Returned None, w);
  view_linkRegister := fun _ _ w => (Returned false, w);
  view_insert := fun _ _ _ _ _ _ w => (Returned 0, w);
  view_insert_batch := fun _ _ _ _ _ w => (Returned 0, w);
  view_remove := fun _ _ _ _ w => (Returned 0, w);
  view_drop := fun _ _ w => (Returned 0, w);
  queue_setStatus := fun _ _ w => (Returned tt, w);
  toVelocyPackFigures := fun _ _ b => b
|}.

Definition idle_state : State (EX := idle_externals) :=
  mkState (EX := idle_externals) tt [].

(** [add] and [meta.json] throw on a builder that has no open object, and
    leave it as it is. *)
Definition needs_open_object (b : DocBuilder) : option (Exception * DocBuilder) :=
  match open b with
  | Some _ => None
  | None => Some (foreign_exception "Need open Object", b)
  end.

Definition failures : BuilderFailures (CO := collaborators) := {|
  add_throws := fun _ _ b => needs_open_object b;
  meta_json_throws := fun _ b => needs_open_object b
|}.

Definition strict_failures : BuilderFailures (CO := strict_collaborators) :=
  Build_BuilderFailures (CO := strict_collaborators)
    (fun _ _ b => needs_open_object b) (fun _ b => needs_open_object b).

(** A builder with no open object. *)
Definition closed_builder : DocBuilder := mkBuilder DNone None.

End Reference.

(** * Properties *)

Section Properties.

Context {VP : VelocyPack} {CO : Collaborators} {EC : ErrorCodes} {EX : Externals}.

(** Unfolds the plumbing of the monad. *)
Ltac run :=
  unfold bind, ret, lift, throw, setStatus, extern, emit,
         LOG_TOPIC, TRI_set_errno, try_catch; simpl.

(** Case analysis on the innermost scrutinee of the goal. *)
Ltac case_split :=
  match goal with
  | |- context [match ?x with _ => _ end] =>
      lazymatch x with
      | context [match _ with _ => _ end] => fail
      | _ => destruct x eqn:?; simpl
      end
  end.

(** Uses the equations between constructor terms among the hypotheses. *)
Ltac inj :=
  repeat match goal with
  | H : ?x = ?x |- _ => clear H
  | H : Some _ = Some _ |- _ => injection H; clear H; intros; try subst
  | H : Returned _ = Returned _ |- _ => injection H; clear H; intros; try subst
  | H : (_, _) = (_, _) |- _ => injection H; clear H; intros; try subst
  end.

(** Exhibits the events a run appended to the trace. *)
Ltac trace_ext :=
  match goal with
  | |- exists evs, _ = (_ ++ evs)%list /\ _ =>
      first [ solve [exists []; rewrite app_nil_r; repeat split]
            | solve [eexists; split; [reflexivity | repeat split]]
            | solve [eexists; split; [rewrite <- app_assoc; reflexivity | repeat split]] ]
  end.

Lemma unbound_insert (l : IResearchLink) trx rid doc isRollback :
  unbound l ->
  insert l trx rid doc isRollback
  = ret (mkResult TRI_ERROR_ARANGO_COLLECTION_NOT_LOADED).
Proof.
  unfold insert. intros [H | H]; rewrite H.
  - destruct (_collection l); reflexivity.
  - reflexivity.
Qed.

Lemma unbound_remove (l : IResearchLink) trx rid doc isRollback :
  unbound l ->
  remove l trx rid doc isRollback
  = ret (mkResult TRI_ERROR_ARANGO_COLLECTION_NOT_LOADED).
Proof.
  unfold remove. intros [H | H]; rewrite H.
  - destruct (_collection l); reflexivity.
  - reflexivity.
Qed.

Lemma unbound_batchInsert (l : IResearchLink) trx batch q :
  unbound l ->
  batchInsert l trx batch (Some q)
  = setStatus q TRI_ERROR_ARANGO_COLLECTION_NOT_LOADED.
Proof.
  unfold batchInsert. intros [H | H]; rewrite H.
  - destruct (_collection l); reflexivity.
  - reflexivity.
Qed.

(** C2. insert and remove: a link without view or without collection
    answers CollectionNotLoaded; a bound link given a null transaction
    answers BadParameter; in both cases the state (world and trace) is
    exactly what it was, so nothing was delegated.  Otherwise the view is
    called once and its status is returned as it is. *)
Theorem insert_remove_contract
    (l : IResearchLink) (trx : option Methods) (rid : Z) (doc : VPackSlice)
    (isRollback : bool) (s : State) :
  (unbound l ->
     insert l trx rid doc isRollback s
       = (Returned (mkResult TRI_ERROR_ARANGO_COLLECTION_NOT_LOADED), s) /\
     remove l trx rid doc isRollback s
       = (Returned (mkResult TRI_ERROR_ARANGO_COLLECTION_NOT_LOADED), s)) /\
  (bound l -> trx = None ->
     insert l trx rid doc isRollback s
       = (Returned (mkResult TRI_ERROR_BAD_PARAMETER), s) /\
     remove l trx rid doc isRollback s
       = (Returned (mkResult TRI_ERROR_BAD_PARAMETER), s)) /\
  (forall c v t,
     _collection l = Some c -> _view l = Some v -> trx = Some t ->
     insert l trx rid doc isRollback s
       = forwarded (EvViewInsert v t (cid c) rid doc)
                   (view_insert v t (cid c) rid doc (_meta l) (world s)) s /\
     remove l trx rid doc isRollback s
       = forwarded (EvViewRemove v t (cid c) rid)
                   (view_remove v t (cid c) rid (world s)) s).
Proof.
  split; [| split].
  - intros H. rewrite unbound_insert, unbound_remove by assumption. split; reflexivity.
  - intros (c & v & Hc & Hv) ->. unfold insert, remove. rewrite Hc, Hv. split; reflexivity.
  - intros c v t Hc Hv ->. unfold insert, remove, forwarded. rewrite Hc, Hv. run.
    split.
    + destruct (view_insert v t (cid c) rid doc (_meta l) (world s)) as [[res | e] w];
        reflexivity.
    + destruct (view_remove v t (cid c) rid (world s)) as [[res | e] w]; reflexivity.
Qed.

(** C10. With the view or the collection missing and the transaction null at
    the same time, the three operations report CollectionNotLoaded: the
    binding is tested first.  Where the two error numbers differ this is not
    the BadParameter answer. *)
Theorem unbound_checked_before_transaction
    (l : IResearchLink) (rid : Z) (doc : VPackSlice) (isRollback : bool)
    (batch : list (Z * VPackSlice)) (q : LocalTaskQueue) (s : State) :
  unbound l ->
  TRI_ERROR_ARANGO_COLLECTION_NOT_LOADED <> TRI_ERROR_BAD_PARAMETER ->
  (fst (insert l None rid doc isRollback s)
     = Returned (mkResult TRI_ERROR_ARANGO_COLLECTION_NOT_LOADED) /\
   fst (insert l None rid doc isRollback s)
     <> Returned (mkResult TRI_ERROR_BAD_PARAMETER)) /\
  (fst (remove l None rid doc isRollback s)
     = Returned (mkResult TRI_ERROR_ARANGO_COLLECTION_NOT_LOADED) /\
   fst (remove l None rid doc isRollback s)
     <> Returned (mkResult TRI_ERROR_BAD_PARAMETER)) /\
  (trace (snd (batchInsert l None batch (Some q) s))
     = trace s ++ [EvSetStatus q TRI_ERROR_ARANGO_COLLECTION_NOT_LOADED] /\
   trace (snd (batchInsert l None batch (Some q) s))
     <> trace s ++ [EvSetStatus q TRI_ERROR_BAD_PARAMETER])%list.
Proof.
  intros Hu Hne.
  rewrite unbound_insert, unbound_remove, unbound_batchInsert by assumption.
  run. repeat split; try congruence.
  - destruct (queue_setStatus q TRI_ERROR_ARANGO_COLLECTION_NOT_LOADED (world s));
      reflexivity.
  - destruct (queue_setStatus q TRI_ERROR_ARANGO_COLLECTION_NOT_LOADED (world s)).
    simpl. intros H. apply app_inv_head in H. congruence.
Qed.

(** C8. batchInsert without a queue throws a [std::runtime_error] at once:
    nothing is returned, the world is untouched and no event (no status, no
    call to the view) was produced. *)
Theorem batchInsert_null_queue_throws
    (l : IResearchLink) (trx : option Methods) (batch : list (Z * VPackSlice))
    (s : State) :
  batchInsert l trx batch None s
  = (Thrown (std_runtime_error
       ("failed to report status during batch insert for iResearch link '"
        ++ to_string (id l) ++ "'")%string), s).
Proof. reflexivity. Qed.

(** C3. batchInsert with a queue: a link without view or collection sets
    CollectionNotLoaded on the queue, a bound link given a null transaction
    sets BadParameter, and in both cases that is the only event.  Otherwise
    the view receives the whole batch in one call, and a status is set on
    the queue exactly when the view returned a status other than NO_ERROR
    (that status); on NO_ERROR the queue is not called. *)
Theorem batchInsert_contract
    (l : IResearchLink) (trx : option Methods) (batch : list (Z * VPackSlice))
    (q : LocalTaskQueue) (s : State) :
  (unbound l ->
     batchInsert l trx batch (Some q) s
       = setStatus q TRI_ERROR_ARANGO_COLLECTION_NOT_LOADED s /\
     trace (snd (batchInsert l trx batch (Some q) s))
       = (trace s ++ [EvSetStatus q TRI_ERROR_ARANGO_COLLECTION_NOT_LOADED])%list) /\
  (bound l -> trx = None ->
     batchInsert l trx batch (Some q) s = setStatus q TRI_ERROR_BAD_PARAMETER s /\
     trace (snd (batchInsert l trx batch (Some q) s))
       = (trace s ++ [EvSetStatus q TRI_ERROR_BAD_PARAMETER])%list) /\
  (forall c v t,
     _collection l = Some c -> _view l = Some v -> trx = Some t ->
     let ev := EvViewInsertBatch v t (cid c) batch in
     let answer := view_insert_batch v t (cid c) batch (_meta l) (world s) in
     let s1 := mkState (snd answer) (trace s ++ [ev]) in
     batchInsert l trx batch (Some q) s
       = match fst answer with
         | Returned res =>
             if res =? TRI_ERROR_NO_ERROR then (Returned tt, s1)
             else setStatus q res s1
         | Thrown e => (Thrown e, s1)
         end /\
     trace (snd (batchInsert l trx batch (Some q) s))
       = (trace s ++ batch_events ev q (fst answer))%list /\
     (existsb is_setStatus (batch_events ev q (fst answer)) = true <->
      exists res, fst answer = Returned res /\ res <> TRI_ERROR_NO_ERROR)).
Proof.
  split; [| split].
  - intros H. rewrite unbound_batchInsert by assumption. split; [reflexivity |].
    run. destruct (queue_setStatus _ _ _); reflexivity.
  - intros (c & v & Hc & Hv) ->. unfold batchInsert. rewrite Hc, Hv.
    split; [reflexivity |]. run. destruct (queue_setStatus _ _ _); reflexivity.
  - intros c v t Hc Hv -> ev answer s1. subst ev s1.
    unfold batchInsert, batch_events. rewrite Hc, Hv. run. fold answer.
    destruct answer as [[res | e] w]; simpl.
    + rewrite (Z.eqb_sym TRI_ERROR_NO_ERROR res).
      destruct (Z.eqb_spec res TRI_ERROR_NO_ERROR) as [-> | Hne]; simpl.
      * repeat split; try reflexivity.
        -- discriminate.
        -- intros (res & [= <-] & Hres). congruence.
      * destruct (queue_setStatus q res w) as [r w'] eqn:Hq; simpl.
        repeat split.
        -- rewrite <- app_assoc. reflexivity.
        -- intros _. exists res. split; [reflexivity | assumption].
    + repeat split; try reflexivity.
      * discriminate.
      * intros (res & Hres & _). discriminate.
Qed.

(** ** The identifier check *)

Lemma uint64_t_nonneg (i : Z) : 0 <= i -> is_int64 i -> uint64_t i = i.
Proof.
  unfold uint64_t, two64, is_int64, INT64_MIN, INT64_MAX. intros H0 [_ H1].
  apply Z.mod_small. lia.
Qed.

(** The check passes exactly when the slice is a number that both accessors
    can read, which makes it a non-negative value that fits 63 bits; on a
    number that one of the accessors refuses, the check does not answer
    "false": it throws what the accessor throws. *)
Lemma isValidIdentifier_true (identifier : VPackSlice) :
  isValidIdentifier identifier = Returned true <->
  isNumber identifier = true /\
  exists n, getInt identifier = Returned n /\ getUInt identifier = Returned n /\
            0 <= n <= INT64_MAX.
Proof.
  unfold isValidIdentifier. split.
  - destruct (isNumber identifier); [| discriminate].
    destruct (getInt identifier) as [i | e] eqn:Hi; simpl; [| discriminate].
    destruct (getUInt identifier) as [u | e] eqn:Hu; simpl; [| discriminate].
    intros _. split; [reflexivity |].
    pose proof (getInt_getUInt _ Hi Hu) as <-.
    exists i. repeat split.
    + apply getUInt_uint64 in Hu. apply Hu.
    + apply getInt_int64 in Hi. apply Hi.
  - intros (-> & n & -> & -> & Hn0 & Hn1). simpl.
    rewrite uint64_t_nonneg.
    + rewrite Z.eqb_refl. reflexivity.
    + assumption.
    + unfold is_int64, INT64_MIN, INT64_MAX in *. lia.
Qed.

Lemma isValidIdentifier_false (identifier : VPackSlice) :
  isValidIdentifier identifier = Returned false <-> isNumber identifier = false.
Proof.
  unfold isValidIdentifier. split.
  - destruct (isNumber identifier); [| reflexivity].
    destruct (getInt identifier) as [i | e] eqn:Hi; simpl; [| discriminate].
    destruct (getUInt identifier) as [u | e] eqn:Hu; simpl; [| discriminate].
    pose proof (getInt_getUInt _ Hi Hu) as <-.
    rewrite uint64_t_nonneg.
    + rewrite Z.eqb_refl. discriminate.
    + apply getUInt_uint64 in Hu. apply Hu.
    + apply getInt_int64 in Hi. assumption.
  - intros ->. reflexivity.
Qed.

(** ** matchesDefinition *)

Lemma compare_meta_true (l : IResearchLink) (candidate : VPackSlice) :
  Outcome_bind (meta_init candidate)
    (fun x => match x with
              | (ok, other, _) => Returned (ok && meta_eq (_meta l) other)
              end) = Returned true
  <-> meta_agrees l candidate.
Proof.
  unfold meta_agrees. split.
  - destruct (meta_init candidate) as [[[ok other] err] | e]; simpl; [| discriminate].
    intros [= H]. apply andb_true_iff in H as [-> H]. eauto.
  - intros (other & err & -> & H). simpl. rewrite H. reflexivity.
Qed.

(** C4. matchesDefinition returns true exactly when the view ids agree (in
    presence and, if present, in value) and the metadata agrees. *)
Theorem matchesDefinition_true_iff (l : IResearchLink) (candidate : VPackSlice) :
  matchesDefinition l candidate = Returned true <->
  view_agrees l candidate /\ meta_agrees l candidate.
Proof.
  unfold matchesDefinition, view_agrees.
  destruct (hasKey candidate VIEW_ID_FIELD) as [[|] | e] eqn:Hk; simpl.
  - destruct (_view l) as [view |] eqn:Hv.
    + destruct (get candidate VIEW_ID_FIELD) as [identifier | e] eqn:Hg; simpl.
      * destruct (isValidIdentifier identifier) as [[|] | e] eqn:Hvalid; simpl.
        -- apply isValidIdentifier_true in Hvalid as (Hnum & n & Hi & Hu & Hn0 & Hn1).
           rewrite Hu. simpl.
           destruct (Z.eqb_spec n (view_id view)) as [Heq | Hne]; simpl.
           ++ rewrite compare_meta_true. split.
              ** intros Hm. split; [| assumption]. right. split; [reflexivity |].
                 exists view, identifier, n. repeat split; assumption.
              ** intros [_ Hm]. assumption.
           ++ split; [discriminate |].
              intros [[[H _] | (_ & view' & identifier' & n' & Hv' & Hg' & _ & _ & Hu' & _ & Hn')] _].
              ** discriminate.
              ** congruence.
        -- split; [discriminate |].
           intros [[[H _] | (_ & view' & identifier' & n' & Hv' & Hg' & Hnum' & Hi' & Hu' & Hn0' & _)] _].
           ++ discriminate.
           ++ injection Hg' as <-.
              assert (isValidIdentifier identifier = Returned true) as Habs.
              { apply isValidIdentifier_true. split; [assumption |].
                exists n'. repeat split; try assumption.
                apply getInt_int64 in Hi'. apply Hi'. }
              congruence.
        -- split; [discriminate |].
           intros [[[H _] | (_ & view' & identifier' & n' & Hv' & Hg' & Hnum' & Hi' & Hu' & Hn0' & _)] _].
           ++ discriminate.
           ++ injection Hg' as <-.
              assert (isValidIdentifier identifier = Returned true) as Habs.
              { apply isValidIdentifier_true. split; [assumption |].
                exists n'. repeat split; try assumption.
                apply getInt_int64 in Hi'. apply Hi'. }
              congruence.
      * split; [discriminate |].
        intros [[[H _] | (_ & view' & identifier' & n' & _ & Hg' & _)] _]; discriminate.
    + split; [discriminate |].
      intros [[[H _] | (_ & view' & identifier' & n' & Hv' & _)] _]; discriminate.
  - destruct (_view l) as [view |] eqn:Hv.
    + split; [discriminate |]. intros [[[_ H] | [H _]] _]; discriminate.
    + rewrite compare_meta_true. split.
      * intros Hm. split; [| assumption]. left. split; reflexivity.
      * intros [_ Hm]. assumption.
  - split; [discriminate |]. intros [[[H _] | [H _]] _]; discriminate.
Qed.

(** ** Serialisation and unload *)

Lemma toVelocyPack_shape (l : IResearchLink) builder withFigures forPersistence w :
  toVelocyPack l builder withFigures forPersistence w
  = close (write_figures l withFigures w
             (write_view_id (serialized_view_id l) (definition_head l builder))).
Proof.
  unfold toVelocyPack, write_figures, write_view_id, serialized_view_id, definition_head.
  destruct (meta_json (_meta l) (openObject builder)) as [success b]. simpl.
  destruct (_view l); [reflexivity |].
  destruct (_defaultId l =? 0); reflexivity.
Qed.

(** C6. Unloading a bound link copies the view's id into [_defaultId],
    clears [_view] and returns NO_ERROR; unloading again changes nothing.
    The definition serialised afterwards carries the id of the view that was
    bound: the same view field as before the unload and, figures apart, the
    same document.  (A view's id is never 0.) *)
Theorem unload_remembers_view (l : IResearchLink) (view : IResearchView) :
  _view l = Some view ->
  fst (unload l) = TRI_ERROR_NO_ERROR /\
  _defaultId (snd (unload l)) = view_id view /\
  _view (snd (unload l)) = None /\
  unload (snd (unload l)) = (TRI_ERROR_NO_ERROR, snd (unload l)) /\
  serialized_view_id (snd (unload l)) = Some (view_id view) /\
  (forall builder withFigures forPersistence w,
     toVelocyPack (snd (unload l)) builder withFigures forPersistence w
     = close (write_figures (snd (unload l)) withFigures w
                (add VIEW_ID_FIELD (ValueUInt (view_id view))
                   (definition_head l builder)))) /\
  (forall builder forPersistence w,
     toVelocyPack (snd (unload l)) builder false forPersistence w
     = toVelocyPack l builder false forPersistence w).
Proof.
  intros Hv.
  assert (Hid : serialized_view_id (snd (unload l)) = Some (view_id view)).
  { unfold serialized_view_id, unload. rewrite Hv. simpl.
    destruct (Z.eqb_spec (view_id view) 0) as [H0 | _]; [| reflexivity].
    exfalso. exact (view_id_nonzero view H0). }
  repeat apply conj.
  - reflexivity.
  - unfold unload. rewrite Hv. reflexivity.
  - reflexivity.
  - unfold unload. rewrite Hv. reflexivity.
  - assumption.
  - intros. rewrite toVelocyPack_shape, Hid. unfold unload. rewrite Hv. reflexivity.
  - intros. rewrite !toVelocyPack_shape, Hid.
    unfold serialized_view_id at 1. rewrite Hv.
    unfold unload. rewrite Hv. reflexivity.
Qed.

(** ** Invariants over the life of a link *)

Lemma index_flags_ctor iid collection meta :
  index_flags (IResearchLink_ctor iid collection meta).
Proof. split; reflexivity. Qed.

Lemma index_flags_set_view l v : index_flags l -> index_flags (set_view l v).
Proof. intros H. exact H. Qed.

Lemma index_flags_set_defaultId l d : index_flags l -> index_flags (set_defaultId l d).
Proof. intros H. exact H. Qed.

Lemma index_flags_apply_op op l s : index_flags l -> index_flags (fst (apply_op op l s)).
Proof.
  intros H. destruct op; simpl; try assumption.
  - unfold unload. destruct (_view l); simpl; assumption.
  - unfold linkRegister, bind, extern, ret.
    destruct (view_linkRegister view l (world s)) as [[[|] | e] w]; simpl; assumption.
Qed.

Lemma index_flags_run_ops ops : forall l s,
  index_flags l -> index_flags (fst (run_ops ops l s)).
Proof.
  induction ops as [| op rest IH]; intros l s H; simpl.
  - assumption.
  - destruct (apply_op op l s) as [l' s'] eqn:Happ.
    apply IH. change l' with (fst (l', s')). rewrite <- Happ.
    apply index_flags_apply_op. assumption.
Qed.

Lemma index_flags_make iid collection definition s l :
  fst (make iid collection definition s) = Some l -> index_flags l.
Proof.
  unfold make, make_try, make_view_not_found, linkRegister. run.
  repeat case_split; intros H; try discriminate H; injection H as <-;
    split; reflexivity.
Qed.

(** C9. Whatever is done to a link, one built by the constructor or one
    returned by [make], it stays non-unique and sparse.  Its serialisation
    takes the view id from one source: the bound view when there is one
    (the remembered id then plays no part), the remembered id when the link
    is unbound and the id is not 0, and no view field is written
    otherwise. *)
Theorem link_invariants (l : IResearchLink) (ops : list Operation) (s : State) :
  (forall iid collection meta,
     index_flags (fst (run_ops ops (IResearchLink_ctor iid collection meta) s))) /\
  (forall iid collection definition s0,
     fst (make iid collection definition s0) = Some l ->
     index_flags l /\ index_flags (fst (run_ops ops l s))) /\
  (forall builder withFigures forPersistence w,
     toVelocyPack l builder withFigures forPersistence w
     = close (write_figures l withFigures w
                (write_view_id (serialized_view_id l) (definition_head l builder)))) /\
  (forall view,
     _view l = Some view ->
     serialized_view_id l = Some (view_id view) /\
     forall d builder forPersistence w,
       serialized_view_id (set_defaultId l d) = Some (view_id view) /\
       toVelocyPack (set_defaultId l d) builder false forPersistence w
       = toVelocyPack l builder false forPersistence w) /\
  (_view l = None -> _defaultId l <> 0 ->
     serialized_view_id l = Some (_defaultId l)) /\
  (_view l = None -> _defaultId l = 0 ->
     serialized_view_id l = None /\
     forall builder withFigures forPersistence w,
       toVelocyPack l builder withFigures forPersistence w
       = close (write_figures l withFigures w (definition_head l builder))).
Proof.
  repeat apply conj.
  - intros. apply index_flags_run_ops, index_flags_ctor.
  - intros iid collection definition s0 Hmake.
    pose proof (index_flags_make _ _ _ _ _ Hmake) as Hl.
    split; [assumption |]. apply index_flags_run_ops. assumption.
  - intros. apply toVelocyPack_shape.
  - intros view Hv. unfold serialized_view_id. rewrite Hv.
    split; [reflexivity |]. intros d builder forPersistence w. simpl. rewrite Hv.
    split; [reflexivity |].
    rewrite !toVelocyPack_shape. unfold serialized_view_id. simpl. rewrite Hv.
    reflexivity.
  - intros Hv Hd. unfold serialized_view_id. rewrite Hv.
    destruct (Z.eqb_spec (_defaultId l) 0); [contradiction | reflexivity].
  - intros Hv Hd.
    assert (Hid : serialized_view_id l = None).
    { unfold serialized_view_id. rewrite Hv, Hd. reflexivity. }
    split; [assumption |]. intros. rewrite toVelocyPack_shape, Hid. reflexivity.
Qed.

(** ** A link and its own serialised definition *)

Context {DL : DocumentLaws}.

Lemma fresh_definition_head (l : IResearchLink) :
  fresh_object (definition_head l newBuilder).
Proof. unfold definition_head. repeat constructor. Qed.

Lemma definition_head_has_no_view (l : IResearchLink) :
  hasKey (slice (close (definition_head l newBuilder))) VIEW_ID_FIELD = Returned false.
Proof.
  unfold definition_head.
  rewrite hasKey_add_other by (repeat constructor || discriminate).
  rewrite hasKey_add_other by (repeat constructor || discriminate).
  rewrite meta_json_keeps_view by constructor.
  apply hasKey_open.
Qed.

Lemma definition_head_meta (l : IResearchLink) :
  meta_agrees l (slice (close (definition_head l newBuilder))).
Proof.
  unfold meta_agrees, definition_head.
  rewrite meta_init_add_other by (repeat constructor || (simpl; tauto)).
  rewrite meta_init_add_other by (repeat constructor || (simpl; tauto)).
  apply meta_round_trip.
Qed.

(** The figures, written last, change neither the view field nor what the
    metadata parser sees. *)
Lemma figures_frame (l : IResearchLink) (withFigures : bool) (w : World)
    (b : VPackBuilder) :
  fresh_object b ->
  hasKey (slice (close (write_figures l withFigures w b))) VIEW_ID_FIELD
    = hasKey (slice (close b)) VIEW_ID_FIELD /\
  get (slice (close (write_figures l withFigures w b))) VIEW_ID_FIELD
    = get (slice (close b)) VIEW_ID_FIELD /\
  meta_init (slice (close (write_figures l withFigures w b)))
    = meta_init (slice (close b)).
Proof.
  intros Hb. unfold write_figures. destruct withFigures.
  - repeat apply conj.
    + apply hasKey_add_other; [assumption | discriminate].
    + apply get_add_other; [assumption | discriminate].
    + apply meta_init_add_other; [assumption | simpl; tauto].
  - repeat apply conj; reflexivity.
Qed.

(** What [matchesDefinition] finds in a definition into which the view id
    [n] was written. *)
Lemma written_view_id_reads_back (l : IResearchLink) (withFigures : bool)
    (w : World) (n : Z) :
  is_uint64 n ->
  let d := slice (close (write_figures l withFigures w
                           (add VIEW_ID_FIELD (ValueUInt n)
                              (definition_head l newBuilder)))) in
  hasKey d VIEW_ID_FIELD = Returned true /\
  (exists identifier,
     get d VIEW_ID_FIELD = Returned identifier /\
     isNumber identifier = true /\
     getUInt identifier = Returned n /\
     (n <= INT64_MAX -> getInt identifier = Returned n)) /\
  meta_agrees l d.
Proof.
  intros Hn d. subst d.
  pose proof (fresh_definition_head l) as Hhead.
  assert (Hb : fresh_object (add VIEW_ID_FIELD (ValueUInt n)
                               (definition_head l newBuilder)))
    by (constructor; assumption).
  destruct (figures_frame l withFigures w _ Hb) as (Hk & Hg & Hm).
  repeat apply conj.
  - rewrite Hk. apply hasKey_add_same. assumption.
  - rewrite Hg. apply get_add_uint; try assumption.
    apply definition_head_has_no_view.
  - unfold meta_agrees. rewrite Hm.
    rewrite meta_init_add_other by (assumption || (simpl; tauto)).
    apply definition_head_meta.
Qed.

(** C5, amended. The definition a link serialises into a fresh builder,
    given back to [matchesDefinition]: a link bound to a view whose id fits
    a signed 64-bit integer matches it, and so does an unbound link that
    remembers no view id.  An unbound link that remembers a view id does
    not: the definition then has a view field and the link has no view.
    For a link bound to a view with a larger id, [matchesDefinition] throws,
    because [getInt] cannot read the id. *)
Theorem matchesDefinition_own_definition
    (l : IResearchLink) (withFigures forPersistence : bool) (w : World) :
  let d := slice (toVelocyPack l newBuilder withFigures forPersistence w) in
  (forall view,
     _view l = Some view -> 0 <= view_id view <= INT64_MAX ->
     matchesDefinition l d = Returned true) /\
  (forall view,
     _view l = Some view -> INT64_MAX < view_id view <= UINT64_MAX ->
     exists e, matchesDefinition l d = Thrown e) /\
  (_view l = None -> _defaultId l = 0 -> matchesDefinition l d = Returned true) /\
  (_view l = None -> _defaultId l <> 0 -> matchesDefinition l d = Returned false).
Proof.
  intros d. subst d. rewrite toVelocyPack_shape.
  unfold serialized_view_id. split; [| split; [| split]].
  - intros view Hv [Hn0 Hn1]. rewrite Hv. simpl.
    assert (Hn : is_uint64 (view_id view))
      by (unfold is_uint64, UINT64_MAX, INT64_MAX in *; lia).
    destruct (written_view_id_reads_back l withFigures w (view_id view) Hn)
      as (Hkey & (identifier & Hget & Hnum & Hu & Hi) & Hmeta).
    specialize (Hi Hn1).
    assert (Hvalid : isValidIdentifier identifier = Returned true).
    { apply isValidIdentifier_true. split; [assumption |].
      exists (view_id view). repeat apply conj; assumption. }
    unfold matchesDefinition. rewrite Hkey. simpl. rewrite Hv, Hget. simpl.
    rewrite Hvalid. simpl. rewrite Hu. simpl. rewrite Z.eqb_refl. simpl.
    apply compare_meta_true. exact Hmeta.
  - intros view Hv [Hn0 Hn1]. rewrite Hv. simpl.
    assert (Hn : is_uint64 (view_id view))
      by (unfold is_uint64, UINT64_MAX, INT64_MAX in *; lia).
    destruct (written_view_id_reads_back l withFigures w (view_id view) Hn)
      as (Hkey & (identifier & Hget & Hnum & Hu & _) & _).
    unfold matchesDefinition. rewrite Hkey. simpl. rewrite Hv, Hget. simpl.
    unfold isValidIdentifier. rewrite Hnum.
    destruct (getInt identifier) as [i | e] eqn:Hi; simpl.
    + exfalso. pose proof (getInt_getUInt _ Hi Hu) as ->.
      apply getInt_int64 in Hi. unfold is_int64 in Hi. lia.
    + exists e. reflexivity.
  - intros Hv Hd. rewrite Hv, Hd. simpl.
    pose proof (fresh_definition_head l) as Hhead.
    destruct (figures_frame l withFigures w _ Hhead) as (Hk & _ & Hm).
    unfold matchesDefinition. rewrite Hk, definition_head_has_no_view. simpl.
    rewrite Hv. apply compare_meta_true. unfold meta_agrees. rewrite Hm.
    apply definition_head_meta.
  - intros Hv Hd. rewrite Hv.
    destruct (Z.eqb_spec (_defaultId l) 0) as [H0 | _]; [contradiction |]. simpl.
    assert (Hb : fresh_object (add VIEW_ID_FIELD (ValueUInt (_defaultId l))
                                 (definition_head l newBuilder)))
      by (constructor; apply fresh_definition_head).
    destruct (figures_frame l withFigures w _ Hb) as (Hk & _).
    unfold matchesDefinition. rewrite Hk.
    rewrite hasKey_add_same by apply fresh_definition_head. simpl.
    rewrite Hv. reflexivity.
Qed.

(** ** Construction *)

(** C7. A definition with the skip marker is never looked up: [make] leaves
    the world as it is and produces no lookup and no registration event,
    whether or not a view id is present.  A view id that is present is
    checked: the link is returned only if the id is a non-negative integer,
    which is then its [_defaultId]; if the check does not pass, [make]
    returns null.  Any link returned is unbound. *)
Theorem make_skip_registration
    (iid : Z) (collection : option LogicalCollection) (definition : VPackSlice)
    (s : State) :
  hasKey definition SKIP_VIEW_REGISTRATION_FIELD = Returned true ->
  let r := fst (make iid collection definition s) in
  let s' := snd (make iid collection definition s) in
  world s' = world s /\
  (exists evs, trace s' = (trace s ++ evs)%list /\ no_lookup_no_view_call evs) /\
  (forall l, r = Some l -> _view l = None) /\
  (forall identifier,
     hasKey definition VIEW_ID_FIELD = Returned true ->
     get definition VIEW_ID_FIELD = Returned identifier ->
     (forall l, r = Some l ->
        exists n, isNumber identifier = true /\
                  getInt identifier = Returned n /\ getUInt identifier = Returned n /\
                  0 <= n /\ _defaultId l = n) /\
     (isValidIdentifier identifier <> Returned true -> r = None) /\
     (forall meta error,
        meta_init definition = Returned (true, meta, error) ->
        isValidIdentifier identifier = Returned true ->
        exists n, getUInt identifier = Returned n /\
                  r = Some (set_defaultId (IResearchLink_ctor iid collection meta) n))) /\
  (hasKey definition VIEW_ID_FIELD = Returned false ->
   forall meta error,
     meta_init definition = Returned (true, meta, error) ->
     r = Some (IResearchLink_ctor iid collection meta)).
Proof.
  intros Hskip r s'. subst r s'.
  unfold make, make_try, no_lookup_no_view_call. run.
  destruct (meta_init definition) as [[[[|] meta] error] | e]; simpl;
    [rewrite Hskip; simpl | |].
  1: destruct (hasKey definition VIEW_ID_FIELD) as [[|] | e] eqn:Hkey; simpl.
  1: destruct (get definition VIEW_ID_FIELD) as [identifier | e] eqn:Hget; simpl.
  1: destruct (isValidIdentifier identifier) as [[|] | e] eqn:Hvalid; simpl.
  1: pose proof Hvalid as Hv; apply isValidIdentifier_true in Hv;
     destruct Hv as (Hnum & n & Hi & Hu & Hn0 & Hn1); rewrite Hu; simpl.
  all: repeat apply conj; try trace_ext; try reflexivity.
  all: intros; try discriminate; try congruence.
  all: repeat apply conj; intros; try discriminate; try congruence; try reflexivity.
  all: inj; try reflexivity.
  - exists n. repeat apply conj; try assumption. reflexivity.
  - exists n. split; [assumption | reflexivity].
Qed.

(** When [make] returns null, and what it returns otherwise. *)
Lemma make_null_or_bound
    (iid : Z) (collection : option LogicalCollection) (definition : VPackSlice)
    (s : State) :
  hasKey definition SKIP_VIEW_REGISTRATION_FIELD = Returned false ->
  hasKey definition VIEW_ID_FIELD = Returned true ->
  let r := fst (make iid collection definition s) in
  let s' := snd (make iid collection definition s) in
  (r = None \/
   exists meta error db viewId lv view w1,
     meta_init definition = Returned (true, meta, error) /\
     lookup_target collection definition = Some (db, viewId) /\
     lookupView db viewId (world s) = (Returned (Some lv), w1) /\
     logicalView_type lv = IResearchView_type /\
     getImplementation lv = Some view /\
     view_linkRegister view (IResearchLink_ctor iid collection meta) w1
       = (Returned true, world s') /\
     r = Some (set_view (IResearchLink_ctor iid collection meta) (Some view))) /\
  (forall l, r = Some l -> exists view, _view l = Some view) /\
  (collection = None -> r = None) /\
  (forall c, collection = Some c -> vocbase c = None -> r = None) /\
  (forall db viewId w1,
     lookup_target collection definition = Some (db, viewId) ->
     lookupView db viewId (world s) = (Returned None, w1) -> r = None) /\
  (forall db viewId lv w1,
     lookup_target collection definition = Some (db, viewId) ->
     lookupView db viewId (world s) = (Returned (Some lv), w1) ->
     logicalView_type lv <> IResearchView_type -> r = None) /\
  (forall db viewId lv w1 view meta error,
     lookup_target collection definition = Some (db, viewId) ->
     lookupView db viewId (world s) = (Returned (Some lv), w1) ->
     getImplementation lv = Some view ->
     meta_init definition = Returned (true, meta, error) ->
     fst (view_linkRegister view (IResearchLink_ctor iid collection meta) w1)
       <> Returned true ->
     r = None) /\
  (forall e s1, make_try iid collection definition s = (Thrown e, s1) -> r = None).
Proof.
  intros Hskip Hkey r s'. subst r s'.
  unfold make, make_try, make_view_not_found, linkRegister, lookup_target. run.
  destruct (meta_init definition) as [[[[|] meta] error] | e]; simpl;
    [rewrite Hskip; simpl | |].
  1: destruct collection as [c |]; simpl; [rewrite Hkey; simpl |].
  1: destruct (get definition VIEW_ID_FIELD) as [identifier | e] eqn:Hget; simpl.
  1: destruct (vocbase c) as [db |] eqn:Hdb; simpl.
  1: destruct (isValidIdentifier identifier) as [[|] | e] eqn:Hvalid; simpl.
  1: destruct (getUInt identifier) as [viewId | e] eqn:Hu; simpl.
  1: destruct (lookupView db viewId (world s)) as [[[lv |] | e] w1] eqn:Hlook; simpl.
  1: destruct (String.eqb_spec IResearchView_type (logicalView_type lv)) as [Hty | Hty];
     simpl.
  1: destruct (getImplementation lv) as [view |] eqn:Himpl; simpl.
  1: destruct (view_linkRegister view (IResearchLink_ctor iid (Some c) meta) w1)
       as [[[|] | e] w2] eqn:Hreg; simpl.
  all: repeat apply conj; try (left; reflexivity); try reflexivity.
  all: intros; try discriminate; try congruence.
  all: inj; try discriminate; try congruence.
  - right. exists meta, error, db, viewId, lv, view, w1.
    repeat apply conj; try reflexivity; try assumption. symmetry. assumption.
  - exists view. reflexivity.
  - exfalso.
    match goal with
    | Hagain : lookupView _ _ _ = (Returned (Some ?lv'), _) |- _ =>
        rewrite Hlook in Hagain; inj
    end.
    match goal with
    | Hagain : getImplementation _ = Some ?view' |- _ =>
        rewrite Himpl in Hagain; inj
    end.
    match goal with
    | Hfail : fst _ <> Returned true |- _ => apply Hfail; rewrite Hreg; reflexivity
    end.
Qed.

(** When the lookup finds a view of the right type and that view accepts
    the registration, [make] returns the link, bound to that view. *)
Lemma make_returns_registered_link
    (iid : Z) (collection : option LogicalCollection) (definition : VPackSlice)
    (s : State) (meta : IResearchLinkMeta) (error : string)
    (db : TRI_vocbase_t) (viewId : Z) (lv : LogicalView) (view : IResearchView)
    (w1 w2 : World) :
  hasKey definition SKIP_VIEW_REGISTRATION_FIELD = Returned false ->
  hasKey definition VIEW_ID_FIELD = Returned true ->
  meta_init definition = Returned (true, meta, error) ->
  lookup_target collection definition = Some (db, viewId) ->
  lookupView db viewId (world s) = (Returned (Some lv), w1) ->
  logicalView_type lv = IResearchView_type ->
  getImplementation lv = Some view ->
  view_linkRegister view (IResearchLink_ctor iid collection meta) w1
    = (Returned true, w2) ->
  make iid collection definition s
  = (Some (set_view (IResearchLink_ctor iid collection meta) (Some view)),
     mkState w2 (trace s ++ [EvLookupView db viewId; EvLinkRegister view iid])).
Proof.
  intros Hskip Hkey Hmeta Htarget Hlook Hty Himpl Hreg.
  unfold make, make_try, linkRegister, lookup_target in *. run.
  rewrite Hmeta. simpl. rewrite Hskip. simpl.
  destruct collection as [c |]; [| discriminate]. simpl. rewrite Hkey. simpl.
  destruct (vocbase c) as [db' |]; [| discriminate].
  destruct (get definition VIEW_ID_FIELD) as [identifier | e]; [| discriminate].
  simpl.
  destruct (isValidIdentifier identifier) as [[|] | e]; try discriminate.
  destruct (getUInt identifier) as [viewId' | e]; [| discriminate].
  injection Htarget as -> ->. simpl. rewrite Hlook. simpl.
  rewrite <- Hty, String.eqb_refl. simpl. rewrite Himpl. simpl.
  unfold id. simpl. rewrite Hreg. simpl. rewrite <- app_assoc. reflexivity.
Qed.

(** C1. For a definition with a view id and without skip marker, [make]
    returns null or a link bound to the view found by the lookup, and a link
    only after that view accepted the registration; and it does return that
    link, bound to that view, when the lookup finds a view of the right type
    and the view accepts the registration.  It returns null when the
    collection or its database is absent, when the lookup finds nothing,
    when the object found is of another type, and when the registration
    fails.  [make] returns in every case: what is thrown inside is caught
    and gives null. *)
Theorem make_binds_or_returns_null
    (iid : Z) (collection : option LogicalCollection) (definition : VPackSlice)
    (s : State) :
  hasKey definition SKIP_VIEW_REGISTRATION_FIELD = Returned false ->
  hasKey definition VIEW_ID_FIELD = Returned true ->
  let r := fst (make iid collection definition s) in
  let s' := snd (make iid collection definition s) in
  (r = None \/
   exists meta error db viewId lv view w1,
     meta_init definition = Returned (true, meta, error) /\
     lookup_target collection definition = Some (db, viewId) /\
     lookupView db viewId (world s) = (Returned (Some lv), w1) /\
     logicalView_type lv = IResearchView_type /\
     getImplementation lv = Some view /\
     view_linkRegister view (IResearchLink_ctor iid collection meta) w1
       = (Returned true, world s') /\
     r = Some (set_view (IResearchLink_ctor iid collection meta) (Some view))) /\
  (forall meta error db viewId lv view w1 w2,
     meta_init definition = Returned (true, meta, error) ->
     lookup_target collection definition = Some (db, viewId) ->
     lookupView db viewId (world s) = (Returned (Some lv), w1) ->
     logicalView_type lv = IResearchView_type ->
     getImplementation lv = Some view ->
     view_linkRegister view (IResearchLink_ctor iid collection meta) w1
       = (Returned true, w2) ->
     r = Some (set_view (IResearchLink_ctor iid collection meta) (Some view)) /\
     s' = mkState w2 (trace s ++ [EvLookupView db viewId; EvLinkRegister view iid])) /\
  (forall l, r = Some l -> exists view, _view l = Some view) /\
  (collection = None -> r = None) /\
  (forall c, collection = Some c -> vocbase c = None -> r = None) /\
  (forall db viewId w1,
     lookup_target collection definition = Some (db, viewId) ->
     lookupView db viewId (world s) = (Returned None, w1) -> r = None) /\
  (forall db viewId lv w1,
     lookup_target collection definition = Some (db, viewId) ->
     lookupView db viewId (world s) = (Returned (Some lv), w1) ->
     logicalView_type lv <> IResearchView_type -> r = None) /\
  (forall db viewId lv w1 view meta error,
     lookup_target collection definition = Some (db, viewId) ->
     lookupView db viewId (world s) = (Returned (Some lv), w1) ->
     getImplementation lv = Some view ->
     meta_init definition = Returned (true, meta, error) ->
     fst (view_linkRegister view (IResearchLink_ctor iid collection meta) w1)
       <> Returned true ->
     r = None) /\
  (forall e s1, make_try iid collection definition s = (Thrown e, s1) -> r = None).
Proof.
  intros Hskip Hkey r s'.
  destruct (make_null_or_bound iid collection definition s Hskip Hkey)
    as (H1 & H3 & H4 & H5 & H6 & H7 & H8 & H9).
  split; [exact H1 |]. split.
  - intros meta error db viewId lv view w1 w2 Hmeta Htarget Hlook Hty Himpl Hreg.
    subst r s'.
    rewrite (make_returns_registered_link iid collection definition s meta error
               db viewId lv view w1 w2 Hskip Hkey Hmeta Htarget Hlook Hty Himpl Hreg).
    split; reflexivity.
  - repeat (split; [assumption |]). assumption.
Qed.

(** * Further properties *)

(** ** drop *)

(** A link without view or without collection answers CollectionNotLoaded to
    [drop] and leaves the state as it is; a bound link asks its view, once,
    to drop the collection and returns the view's answer. *)
Theorem drop_contract (l : IResearchLink) (s : State) :
  (unbound l -> drop l s = (Returned TRI_ERROR_ARANGO_COLLECTION_NOT_LOADED, s)) /\
  (forall c v,
     _collection l = Some c -> _view l = Some v ->
     drop l s = (fst (view_drop v (cid c) (world s)),
                 mkState (snd (view_drop v (cid c) (world s)))
                         (trace s ++ [EvViewDrop v (cid c)]))).
Proof.
  split.
  - unfold drop. intros [H | H]; rewrite H.
    + destruct (_collection l); reflexivity.
    + reflexivity.
  - intros c v Hc Hv. unfold drop. rewrite Hc, Hv. run.
    destruct (view_drop v (cid c) (world s)); reflexivity.
Qed.

(** ** Equality with a view *)

(** A link equals a view exactly when it is bound to a view of the same id,
    and [!=] is the negation.  A link that was unloaded equals no view, not
    even the one it was bound to; nor does a link [make] built from a
    definition with the skip marker. *)
Theorem link_equals_bound_view_only (l : IResearchLink) (view : IResearchView) :
  (operator_eq_view l view = true <->
   exists v, _view l = Some v /\ view_id v = view_id view) /\
  operator_ne_view l view = negb (operator_eq_view l view) /\
  operator_eq_view (snd (unload l)) view = false /\
  (forall iid collection definition s,
     hasKey definition SKIP_VIEW_REGISTRATION_FIELD = Returned true ->
     fst (make iid collection definition s) = Some l ->
     operator_eq_view l view = false).
Proof.
  split; [| split; [| split]].
  - unfold operator_eq_view. destruct (_view l) as [v |].
    + rewrite Z.eqb_eq. split.
      * intros H. exists v. split; [reflexivity | assumption].
      * intros (v' & [= <-] & H). assumption.
    + split; [discriminate |]. intros (v & H & _). discriminate.
  - reflexivity.
  - reflexivity.
  - intros iid collection definition s Hskip.
    unfold make, make_try. run. rewrite Hskip.
    repeat case_split; intros H; try discriminate H; injection H as <-; reflexivity.
Qed.

(** ** unload, for every link *)

(** Unloading never changes what [toVelocyPack] writes as the view id, bound
    or not, and never touches the id, the collection, the metadata or the
    flags of the link; unloading twice is unloading once. *)
Theorem unload_keeps_definition (l : IResearchLink) :
  serialized_view_id (snd (unload l)) = serialized_view_id l /\
  (forall builder forPersistence w,
     toVelocyPack (snd (unload l)) builder false forPersistence w
     = toVelocyPack l builder false forPersistence w) /\
  identity (snd (unload l)) = identity l /\
  _unique (snd (unload l)) = _unique l /\
  _sparse (snd (unload l)) = _sparse l /\
  unload (snd (unload l)) = unload l.
Proof.
  assert (Hid : serialized_view_id (snd (unload l)) = serialized_view_id l).
  { unfold serialized_view_id, unload. destruct (_view l) as [view |]; simpl.
    - destruct (Z.eqb_spec (view_id view) 0) as [H0 | _]; [| reflexivity].
      exfalso. exact (view_id_nonzero view H0).
    - reflexivity. }
  repeat apply conj.
  - assumption.
  - intros. rewrite !toVelocyPack_shape, Hid.
    unfold definition_head, unload. destruct (_view l); reflexivity.
  - unfold unload, identity. destruct (_view l); reflexivity.
  - unfold unload. destruct (_view l); reflexivity.
  - unfold unload. destruct (_view l); reflexivity.
  - unfold unload. destruct (_view l); reflexivity.
Qed.

(** After [unload], every mutation is refused with CollectionNotLoaded and
    nothing reaches the view; [load] does not bind the link again, so the
    same holds after [unload] followed by [load]. *)
Theorem unloaded_link_refuses_mutations
    (l : IResearchLink) (trx : option Methods) (rid : Z) (doc : VPackSlice)
    (isRollback : bool) (batch : list (Z * VPackSlice)) (q : LocalTaskQueue)
    (s : State) :
  let l' := fst (run_ops [OpUnload; OpLoad] l s) in
  l' = snd (unload l) /\
  snd (run_ops [OpUnload; OpLoad] l s) = s /\
  load (snd (unload l)) = TRI_ERROR_NO_ERROR /\
  insert l' trx rid doc isRollback s
    = (Returned (mkResult TRI_ERROR_ARANGO_COLLECTION_NOT_LOADED), s) /\
  remove l' trx rid doc isRollback s
    = (Returned (mkResult TRI_ERROR_ARANGO_COLLECTION_NOT_LOADED), s) /\
  drop l' s = (Returned TRI_ERROR_ARANGO_COLLECTION_NOT_LOADED, s) /\
  batchInsert l' trx batch (Some q) s
    = setStatus q TRI_ERROR_ARANGO_COLLECTION_NOT_LOADED s.
Proof.
  assert (Hu : unbound (snd (unload l))) by (left; reflexivity).
  assert (Hrun : run_ops [OpUnload; OpLoad] l s = (snd (unload l), s))
    by reflexivity.
  intros l'. subst l'. rewrite Hrun. cbn [fst snd].
  split; [reflexivity |]. split; [reflexivity |]. split; [reflexivity |].
  split; [| split; [| split]].
  - rewrite unbound_insert by assumption. reflexivity.
  - rewrite unbound_remove by assumption. reflexivity.
  - unfold drop. change (_view (snd (unload l))) with (@None IResearchView).
    destruct (_collection (snd (unload l))); reflexivity.
  - rewrite unbound_batchInsert by assumption. reflexivity.
Qed.

(** ** Invariants over sequences of operations *)

Lemma identity_apply_op op l s : identity (fst (apply_op op l s)) = identity l.
Proof.
  destruct op; simpl; try reflexivity.
  - unfold unload. destruct (_view l); reflexivity.
  - unfold linkRegister, bind, extern, ret.
    destruct (view_linkRegister view l (world s)) as [[[|] | e] w]; reflexivity.
Qed.

(** No sequence of operations changes the id, the collection or the metadata
    of a link. *)
Theorem operations_keep_identity (ops : list Operation) (l : IResearchLink) (s : State) :
  identity (fst (run_ops ops l s)) = identity l.
Proof.
  revert l s. induction ops as [| op rest IH]; intros l s; simpl.
  - reflexivity.
  - destruct (apply_op op l s) as [l' s'] eqn:Happ.
    rewrite IH. change l' with (fst (l', s')). rewrite <- Happ.
    apply identity_apply_op.
Qed.

Lemma unload_without_view (l : IResearchLink) : _view l = None -> snd (unload l) = l.
Proof.
  destruct l as [iid c u sp d m v]. simpl. intros ->. reflexivity.
Qed.

Lemma viewless_apply_op op l s :
  _view l = None ->
  match op with OpLinkRegister _ => false | _ => true end = true ->
  fst (apply_op op l s) = l /\
  exists evs, trace (snd (apply_op op l s)) = (trace s ++ evs)%list /\
              existsb is_call evs = false.
Proof.
  intros Hv Hop.
  assert (Hu : unbound l) by (left; assumption).
  destruct op; simpl; try discriminate Hop.
  - split; [reflexivity |]. rewrite unbound_insert by assumption.
    exists []. rewrite app_nil_r. split; reflexivity.
  - split; [reflexivity |]. rewrite unbound_remove by assumption.
    exists []. rewrite app_nil_r. split; reflexivity.
  - split; [reflexivity |]. destruct queue as [q |].
    + rewrite unbound_batchInsert by assumption. run.
      destruct (queue_setStatus q _ (world s)). simpl.
      exists [EvSetStatus q TRI_ERROR_ARANGO_COLLECTION_NOT_LOADED].
      split; reflexivity.
    + exists []. rewrite app_nil_r. split; reflexivity.
  - split; [reflexivity |].
    assert (Hd : drop l s = (Returned TRI_ERROR_ARANGO_COLLECTION_NOT_LOADED, s)).
    { unfold drop. rewrite Hv. destruct (_collection l); reflexivity. }
    rewrite Hd. exists []. rewrite app_nil_r. split; reflexivity.
  - split; [reflexivity |]. exists []. rewrite app_nil_r. split; reflexivity.
  - split; [apply unload_without_view; assumption |].
    exists []. rewrite app_nil_r. split; reflexivity.
  - split; [reflexivity |]. exists []. rewrite app_nil_r. split; reflexivity.
  - split; [reflexivity |]. exists []. rewrite app_nil_r. split; reflexivity.
Qed.

(** A link that has no view never calls a view or the database, whatever is
    done to it and in whatever order, until a view registers it: every
    access to the view in the source sits behind a test of [_view].  The
    link itself comes out exactly as it went in. *)
Theorem link_without_view_calls_nobody
    (ops : list Operation) (l : IResearchLink) (s : State) :
  _view l = None ->
  no_registration ops = true ->
  fst (run_ops ops l s) = l /\
  exists evs, trace (snd (run_ops ops l s)) = (trace s ++ evs)%list /\
              existsb is_call evs = false.
Proof.
  revert s. induction ops as [| op rest IH]; intros s Hv Hops; simpl.
  - split; [reflexivity |]. exists []. rewrite app_nil_r. split; reflexivity.
  - simpl in Hops. apply andb_true_iff in Hops as [Hop Hrest].
    destruct (viewless_apply_op op l s Hv Hop) as (Hl & evs1 & Ht1 & He1).
    destruct (apply_op op l s) as [l' s'] eqn:Happ. simpl in *. subst l'.
    destruct (IH s' Hv Hrest) as (Hl' & evs2 & Ht2 & He2).
    split; [assumption |].
    exists (evs1 ++ evs2)%list. split.
    + rewrite Ht2, Ht1, app_assoc. reflexivity.
    + rewrite existsb_app, He1, He2. reflexivity.
Qed.

(** ** matchesDefinition: presence of the view id *)

(** When the candidate has a view id and the link has no view, or the link
    has a view and the candidate no view id, the answer is false, and the
    candidate's metadata is not even parsed: the answer does not depend on
    what [meta.init] would return or throw. *)
Theorem matchesDefinition_presence_mismatch (l : IResearchLink) (candidate : VPackSlice) :
  (hasKey candidate VIEW_ID_FIELD = Returned true /\ _view l = None) \/
  (hasKey candidate VIEW_ID_FIELD = Returned false /\ exists v, _view l = Some v) ->
  matchesDefinition l candidate = Returned false.
Proof.
  unfold matchesDefinition. intros [[-> ->] | [-> (v & ->)]]; reflexivity.
Qed.

(** ** make: what it reports, and in which order it calls *)

(** Without skip marker, [make] gives up with errno VIEW_NOT_FOUND, before
    any lookup, when the collection is null, when the definition has no view
    id, when the collection has no database, and when the view id is not a
    number. *)
Theorem make_view_not_found_cases
    (iid : Z) (collection : option LogicalCollection) (definition : VPackSlice)
    (s : State) (meta : IResearchLinkMeta) (error : string) :
  meta_init definition = Returned (true, meta, error) ->
  hasKey definition SKIP_VIEW_REGISTRATION_FIELD = Returned false ->
  collection = None \/
  (exists c, collection = Some c /\
             hasKey definition VIEW_ID_FIELD = Returned false) \/
  (exists c identifier,
     collection = Some c /\
     hasKey definition VIEW_ID_FIELD = Returned true /\
     get definition VIEW_ID_FIELD = Returned identifier /\
     (vocbase c = None \/ isNumber identifier = false)) ->
  make iid collection definition s
  = (None, mkState (world s)
             (trace s ++ [EvLog FIXME; EvSetErrno TRI_ERROR_ARANGO_VIEW_NOT_FOUND])).
Proof.
  intros Hmeta Hskip Hcase.
  unfold make, make_try, make_view_not_found. run. rewrite Hmeta. simpl.
  rewrite Hskip. simpl.
  destruct Hcase as [-> | [(c & -> & Hkey) | (c & identifier & -> & Hkey & Hget & Hwhy)]].
  - rewrite <- app_assoc. reflexivity.
  - rewrite Hkey. simpl. rewrite <- app_assoc. reflexivity.
  - rewrite Hkey. simpl. rewrite Hget. simpl.
    destruct Hwhy as [Hdb | Hnum].
    + rewrite Hdb. simpl. rewrite <- app_assoc. reflexivity.
    + destruct (vocbase c); simpl.
      * unfold isValidIdentifier. rewrite Hnum. simpl.
        rewrite <- app_assoc. reflexivity.
      * rewrite <- app_assoc. reflexivity.
Qed.

(** When the lookup finds no view, or an object of another type, [make]
    returns null having done nothing but the lookup: no registration, no
    log entry, and errno is left alone. *)
Theorem make_lookup_miss_is_silent
    (iid : Z) (collection : option LogicalCollection) (definition : VPackSlice)
    (s : State) (meta : IResearchLinkMeta) (error : string)
    (db : TRI_vocbase_t) (viewId : Z) (found : option LogicalView) (w1 : World) :
  meta_init definition = Returned (true, meta, error) ->
  hasKey definition SKIP_VIEW_REGISTRATION_FIELD = Returned false ->
  hasKey definition VIEW_ID_FIELD = Returned true ->
  lookup_target collection definition = Some (db, viewId) ->
  lookupView db viewId (world s) = (Returned found, w1) ->
  found = None \/
  (exists lv, found = Some lv /\ logicalView_type lv <> IResearchView_type) ->
  make iid collection definition s
  = (None, mkState w1 (trace s ++ [EvLookupView db viewId])).
Proof.
  intros Hmeta Hskip Hkey Htarget Hlook Hmiss.
  unfold make, make_try, lookup_target in *. run. rewrite Hmeta. simpl.
  rewrite Hskip. simpl.
  destruct collection as [c |]; [| discriminate]. simpl. rewrite Hkey. simpl.
  destruct (vocbase c) as [db' |]; [| discriminate].
  destruct (get definition VIEW_ID_FIELD) as [identifier | e]; [| discriminate].
  simpl.
  destruct (isValidIdentifier identifier) as [[|] | e]; try discriminate.
  destruct (getUInt identifier) as [viewId' | e]; [| discriminate].
  injection Htarget as -> ->. simpl. rewrite Hlook. simpl.
  destruct Hmiss as [-> | (lv & -> & Hty)].
  - reflexivity.
  - destruct (String.eqb_spec IResearchView_type (logicalView_type lv)) as [Heq | _].
    + exfalso. apply Hty. symmetry. assumption.
    + reflexivity.
Qed.

(** Closes a goal about the trace after a run, whatever was appended. *)
Ltac trace_eq :=
  first [ symmetry; apply app_nil_r
        | rewrite <- ?app_assoc; reflexivity ].

(** Whatever the definition, [make] looks up at most once and registers at
    most once, and registers only after the lookup; if it calls nobody, the
    world is as before.  When it returns a link it has logged nothing and
    has not set errno. *)
Theorem make_calls_in_order
    (iid : Z) (collection : option LogicalCollection) (definition : VPackSlice)
    (s : State) :
  exists evs,
    trace (snd (make iid collection definition s)) = (trace s ++ evs)%list /\
    lookup_then_register iid evs /\
    (filter is_call evs = [] ->
     world (snd (make iid collection definition s)) = world s) /\
    (fst (make iid collection definition s) <> None ->
     existsb is_errno evs = false /\ existsb is_log evs = false).
Proof.
  unfold make, make_try, make_view_not_found, linkRegister, lookup_then_register. run.
  repeat case_split.
  all: eexists; split; [trace_eq |]; simpl.
  all: repeat apply conj; try reflexivity; try congruence;
    try (intros; discriminate).
  all: try (left; reflexivity).
  all: try (right; left; eexists; eexists; reflexivity).
  all: try (right; right; eexists; eexists; eexists; reflexivity).
  all: intros _; split; reflexivity.
Qed.

(** ** make and toVelocyPack, make and matchesDefinition *)

(** A link made from a definition with the skip marker and the view id [n]
    remembers [n], and serialises it again, unless [n] is 0: then no view
    field is written.  Made from a definition with the skip marker and no
    view id, it serialises no view field either. *)
Theorem deferred_link_serialises_its_id
    (iid : Z) (collection : option LogicalCollection) (definition : VPackSlice)
    (s : State) (meta : IResearchLinkMeta) (error : string) :
  meta_init definition = Returned (true, meta, error) ->
  hasKey definition SKIP_VIEW_REGISTRATION_FIELD = Returned true ->
  (forall identifier n,
     hasKey definition VIEW_ID_FIELD = Returned true ->
     get definition VIEW_ID_FIELD = Returned identifier ->
     isValidIdentifier identifier = Returned true ->
     getUInt identifier = Returned n ->
     exists l,
       fst (make iid collection definition s) = Some l /\
       _defaultId l = n /\
       serialized_view_id l = (if n =? 0 then None else Some n) /\
       forall builder forPersistence w,
         toVelocyPack l builder false forPersistence w
         = close (write_view_id (if n =? 0 then None else Some n)
                    (definition_head l builder))) /\
  (hasKey definition VIEW_ID_FIELD = Returned false ->
   exists l,
     fst (make iid collection definition s) = Some l /\
     serialized_view_id l = None).
Proof.
  intros Hmeta Hskip. split.
  - intros identifier n Hkey Hget Hvalid Hu.
    exists (set_defaultId (IResearchLink_ctor iid collection meta) n).
    assert (Hid : serialized_view_id
                    (set_defaultId (IResearchLink_ctor iid collection meta) n)
                  = (if n =? 0 then None else Some n)) by reflexivity.
    repeat apply conj.
    + unfold make, make_try. run.
      rewrite Hmeta. simpl. rewrite Hskip. simpl. rewrite Hkey. simpl.
      rewrite Hget. simpl. rewrite Hvalid. simpl. rewrite Hu. reflexivity.
    + reflexivity.
    + exact Hid.
    + intros. rewrite toVelocyPack_shape, Hid. reflexivity.
  - intros Hkey. exists (IResearchLink_ctor iid collection meta). split.
    + unfold make, make_try. run.
      rewrite Hmeta. simpl. rewrite Hskip. simpl. rewrite Hkey. reflexivity.
    + reflexivity.
Qed.

(** Creating the same index again: a link made from a definition without
    skip marker matches that definition, provided the database answered the
    lookup with a view of the id asked for and the metadata equals itself. *)
Theorem made_link_matches_its_definition
    (iid : Z) (collection : option LogicalCollection) (definition : VPackSlice)
    (s : State) (l : IResearchLink) :
  hasKey definition SKIP_VIEW_REGISTRATION_FIELD = Returned false ->
  fst (make iid collection definition s) = Some l ->
  (forall db viewId lv w1 view,
     lookup_target collection definition = Some (db, viewId) ->
     lookupView db viewId (world s) = (Returned (Some lv), w1) ->
     getImplementation lv = Some view ->
     view_id view = viewId) ->
  meta_eq (_meta l) (_meta l) = true ->
  matchesDefinition l definition = Returned true.
Proof.
  intros Hskip Hmake Hfound Hrefl.
  revert Hmake Hfound.
  unfold make, make_try, make_view_not_found, linkRegister, lookup_target. run.
  destruct (meta_init definition) as [[[[|] meta] error] | e] eqn:Hmeta; simpl;
    try discriminate.
  rewrite Hskip. simpl.
  destruct collection as [c |]; simpl; [| discriminate].
  destruct (hasKey definition VIEW_ID_FIELD) as [[|] | e] eqn:Hkey; simpl;
    try discriminate.
  destruct (get definition VIEW_ID_FIELD) as [identifier | e] eqn:Hget; simpl;
    [| discriminate].
  destruct (vocbase c) as [db |]; simpl; [| discriminate].
  destruct (isValidIdentifier identifier) as [[|] | e] eqn:Hvalid; simpl;
    try discriminate.
  destruct (getUInt identifier) as [viewId | e] eqn:Hu; simpl; [| discriminate].
  destruct (lookupView db viewId (world s)) as [[[lv |] | e] w1] eqn:Hlook; simpl;
    try discriminate.
  destruct (String.eqb IResearchView_type (logicalView_type lv)); simpl;
    [| discriminate].
  destruct (getImplementation lv) as [view |] eqn:Himpl; simpl; [| discriminate].
  destruct (view_linkRegister view (IResearchLink_ctor iid (Some c) meta) w1)
    as [[[|] | e] w2]; simpl; try discriminate.
  intros [= <-] Hfound.
  pose proof (Hfound db viewId lv w1 view eq_refl Hlook Himpl) as Hid.
  unfold matchesDefinition. simpl in *.
  rewrite Hkey. simpl. rewrite Hget. simpl. rewrite Hvalid. simpl.
  rewrite Hu. simpl. rewrite Hid, Z.eqb_refl. simpl.
  rewrite Hmeta. simpl. rewrite Hrefl. reflexivity.
Qed.

(** A link made from a definition with the skip marker and a view id does
    not match the definition it was made from: the definition names a view
    and the link has none.  Without view id in the definition, the answer
    is that of the metadata comparison. *)
Theorem deferred_link_against_its_definition
    (iid : Z) (collection : option LogicalCollection) (definition : VPackSlice)
    (s : State) (l : IResearchLink) :
  hasKey definition SKIP_VIEW_REGISTRATION_FIELD = Returned true ->
  fst (make iid collection definition s) = Some l ->
  (hasKey definition VIEW_ID_FIELD = Returned true ->
   matchesDefinition l definition = Returned false) /\
  (hasKey definition VIEW_ID_FIELD = Returned false ->
   matchesDefinition l definition = Returned (meta_eq (_meta l) (_meta l))).
Proof.
  intros Hskip. unfold make, make_try. run.
  destruct (meta_init definition) as [[[[|] meta] error] | e] eqn:Hmeta; simpl;
    try discriminate.
  rewrite Hskip. simpl.
  destruct (hasKey definition VIEW_ID_FIELD) as [[|] | e] eqn:Hkey; simpl;
    try discriminate.
  - destruct (get definition VIEW_ID_FIELD) as [identifier | e]; simpl;
      [| discriminate].
    destruct (isValidIdentifier identifier) as [[|] | e]; simpl; try discriminate.
    destruct (getUInt identifier) as [n | e]; simpl; [| discriminate].
    intros [= <-]. split; [| discriminate]. intros _.
    unfold matchesDefinition. rewrite Hkey. reflexivity.
  - intros [= <-]. split; [discriminate |]. intros _.
    unfold matchesDefinition. rewrite Hkey. simpl. rewrite Hmeta. reflexivity.
Qed.

(** ** EnhanceJsonIResearchLink *)

Context {BF : BuilderFailures}.

(** [EnhanceJsonIResearchLink] never changes the world.  Metadata that does
    not parse gives BAD_PARAMETER with the builder untouched.  When the
    metadata parses, the view id, if the definition has one, is added to the
    builder and the metadata written after it; if neither [add] nor
    [meta.json] throws, the result is NO_ERROR or, when [meta.json] returns
    false, BAD_PARAMETER.  Whatever is thrown gives INTERNAL and a log
    entry: thrown while the definition is read, the builder is untouched;
    thrown by [add] or [meta.json], the builder is as they left it.  The
    flag [create] plays no part. *)
Theorem EnhanceJsonIResearchLink_contract
    (definition : VPackSlice) (builder : VPackBuilder) (create : bool) (s : State) :
  let logged := mkState (world s) (trace s ++ [EvLog FIXME]) in
  world (snd (EnhanceJsonIResearchLink definition builder create s)) = world s /\
  (forall meta error,
     meta_init definition = Returned (false, meta, error) ->
     EnhanceJsonIResearchLink definition builder create s
     = ((TRI_ERROR_BAD_PARAMETER, builder), logged)) /\
  (forall meta error,
     meta_init definition = Returned (true, meta, error) ->
     hasKey definition VIEW_ID_FIELD = Returned false \/
     (hasKey definition VIEW_ID_FIELD = Returned true /\
      exists identifier, get definition VIEW_ID_FIELD = Returned identifier) ->
     (copy_throws definition builder = None ->
      meta_json_throws meta (copy_view_id definition builder) = None ->
      EnhanceJsonIResearchLink definition builder create s
      = (enhanced meta definition builder, s)) /\
     (forall e b',
        copy_throws definition builder = Some (e, b') ->
        EnhanceJsonIResearchLink definition builder create s
        = ((TRI_ERROR_INTERNAL, b'), logged)) /\
     (forall e b',
        copy_throws definition builder = None ->
        meta_json_throws meta (copy_view_id definition builder) = Some (e, b') ->
        EnhanceJsonIResearchLink definition builder create s
        = ((TRI_ERROR_INTERNAL, b'), logged))) /\
  (forall e,
     meta_init definition = Thrown e \/
     (exists meta error,
        meta_init definition = Returned (true, meta, error) /\
        (hasKey definition VIEW_ID_FIELD = Thrown e \/
         (hasKey definition VIEW_ID_FIELD = Returned true /\
          get definition VIEW_ID_FIELD = Thrown e))) ->
     EnhanceJsonIResearchLink definition builder create s
     = ((TRI_ERROR_INTERNAL, builder), logged)) /\
  EnhanceJsonIResearchLink definition builder (negb create) s
  = EnhanceJsonIResearchLink definition builder create s.
Proof.
  unfold EnhanceJsonIResearchLink, EnhanceJsonIResearchLink_try, enhanced,
    copy_view_id, copy_throws, Filling_bind, Filling_lift, Filling_ret,
    Filling_log, builder_add, builder_json.
  simpl.
  destruct (meta_init definition) as [[[[|] meta] error] | e]; simpl.
  1: destruct (hasKey definition VIEW_ID_FIELD) as [[|] | e]; simpl.
  1: destruct (get definition VIEW_ID_FIELD) as [identifier | e]; simpl.
  1: destruct (add_throws VIEW_ID_FIELD (ValueSlice identifier) builder)
       as [[e b'] |]; simpl.
  all: repeat match goal with
       | |- context [meta_json_throws ?m ?b] =>
           destruct (meta_json_throws m b) as [[? ?] |] eqn:?; simpl
       end.
  all: repeat apply conj; intros; inj; try discriminate; try reflexivity.
  all: repeat match goal with
       | H : _ \/ _ |- _ => destruct H
       | H : _ /\ _ |- _ => destruct H
       | H : exists _, _ |- _ => destruct H
       end; inj; try discriminate; try congruence; try reflexivity.
  all: repeat match goal with
       | |- context [meta_json ?m ?b] => destruct (meta_json m b) as [[|] ?]; simpl
       end; try reflexivity; try congruence.
  all: repeat apply conj; intros; inj; try discriminate; try congruence;
    try reflexivity.
Qed.

(** A definition from which [make] builds a link gets through the reading
    part of [EnhanceJsonIResearchLink]: its metadata parses and its view id,
    if any, can be read.  So the view id and the metadata of that link are
    written and the result is NO_ERROR (BAD_PARAMETER when [meta.json]
    returns false), unless [add] or [meta.json] throws, which gives
    INTERNAL. *)
Theorem make_accepts_what_enhance_accepts
    (iid : Z) (collection : option LogicalCollection) (definition : VPackSlice)
    (s : State) (l : IResearchLink)
    (builder : VPackBuilder) (create : bool) (s' : State) :
  fst (make iid collection definition s) = Some l ->
  let logged := mkState (world s') (trace s' ++ [EvLog FIXME]) in
  (copy_throws definition builder = None ->
   meta_json_throws (_meta l) (copy_view_id definition builder) = None ->
   EnhanceJsonIResearchLink definition builder create s'
   = (enhanced (_meta l) definition builder, s')) /\
  (forall e b',
     copy_throws definition builder = Some (e, b') ->
     EnhanceJsonIResearchLink definition builder create s'
     = ((TRI_ERROR_INTERNAL, b'), logged)) /\
  (forall e b',
     copy_throws definition builder = None ->
     meta_json_throws (_meta l) (copy_view_id definition builder) = Some (e, b') ->
     EnhanceJsonIResearchLink definition builder create s'
     = ((TRI_ERROR_INTERNAL, b'), logged)).
Proof.
  intros Hmake.
  assert (Hread : exists error,
            meta_init definition = Returned (true, _meta l, error) /\
            (hasKey definition VIEW_ID_FIELD = Returned false \/
             (hasKey definition VIEW_ID_FIELD = Returned true /\
              exists identifier, get definition VIEW_ID_FIELD = Returned identifier))).
  { revert Hmake. unfold make, make_try, make_view_not_found, linkRegister. run.
    destruct (meta_init definition) as [[[[|] meta] error] | e]; simpl;
      try discriminate.
    destruct (hasKey definition SKIP_VIEW_REGISTRATION_FIELD) as [[|] | e]; simpl;
      try discriminate.
    - destruct (hasKey definition VIEW_ID_FIELD) as [[|] | e]; simpl;
        try discriminate.
      + destruct (get definition VIEW_ID_FIELD) as [identifier | e]; simpl;
          [| discriminate].
        destruct (isValidIdentifier identifier) as [[|] | e]; simpl;
          try discriminate.
        destruct (getUInt identifier) as [n | e]; simpl; [| discriminate].
        intros [= <-]. exists error. split; [reflexivity |].
        right. split; [reflexivity |]. exists identifier. reflexivity.
      + intros [= <-]. exists error. split; [reflexivity |]. left. reflexivity.
    - destruct collection as [c |]; simpl; [| discriminate].
      destruct (hasKey definition VIEW_ID_FIELD) as [[|] | e]; simpl;
        try discriminate.
      destruct (get definition VIEW_ID_FIELD) as [identifier | e]; simpl;
        [| discriminate].
      destruct (vocbase c) as [db |]; simpl; [| discriminate].
      destruct (isValidIdentifier identifier) as [[|] | e]; simpl; try discriminate.
      destruct (getUInt identifier) as [viewId | e]; simpl; [| discriminate].
      destruct (lookupView db viewId (world s)) as [[[lv |] | e] w1]; simpl;
        try discriminate.
      destruct (String.eqb IResearchView_type (logicalView_type lv)); simpl;
        [| discriminate].
      destruct (getImplementation lv) as [view |]; simpl; [| discriminate].
      destruct (view_linkRegister view (IResearchLink_ctor iid (Some c) meta) w1)
        as [[[|] | e] w2]; simpl; try discriminate.
      intros [= <-]. exists error. split; [reflexivity |].
      right. split; [reflexivity |]. exists identifier. reflexivity. }
  destruct Hread as (error & Hmeta & Hview).
  intros logged. subst logged.
  unfold EnhanceJsonIResearchLink, EnhanceJsonIResearchLink_try, enhanced,
    copy_view_id, copy_throws, Filling_bind, Filling_lift, Filling_ret,
    Filling_log, builder_add, builder_json.
  rewrite Hmeta. simpl.
  destruct Hview as [Hkey | (Hkey & identifier & Hget)].
  - rewrite Hkey. simpl.
    destruct (meta_json_throws (_meta l) builder) as [[e b'] |]; simpl.
    + repeat apply conj; intros; inj; try discriminate; reflexivity.
    + destruct (meta_json (_meta l) builder) as [[|] b'].
      all: repeat apply conj; intros; inj; try discriminate; reflexivity.
  - rewrite Hkey, Hget. simpl.
    destruct (add_throws VIEW_ID_FIELD (ValueSlice identifier) builder)
      as [[e b'] |]; simpl.
    + repeat apply conj; intros; inj; try discriminate; reflexivity.
    + destruct (meta_json_throws (_meta l)
                  (add VIEW_ID_FIELD (ValueSlice identifier) builder))
        as [[e b'] |]; simpl.
      * repeat apply conj; intros; inj; try discriminate; reflexivity.
      * destruct (meta_json (_meta l)
                    (add VIEW_ID_FIELD (ValueSlice identifier) builder)) as [[|] b'].
        all: repeat apply conj; intros; inj; try discriminate; reflexivity.
Qed.

(** ** memory *)

Context {FP : Footprint}.

(** As long as the sum of the link's own size, its metadata and the view
    does not overflow [size_t]: an unbound link accounts for its own size and
    its metadata, whatever the state of the world; a bound link adds its share
    of the view, the view's memory divided by the number of its links or by 1
    if the view reports none, so that the shares of all links of a view never
    add up to more than the view. *)
Theorem memory_bounds (l : IResearchLink) (w : World) :
  let own := sizeof_IResearchLink + meta_memory (_meta l) in
  (_view l = None -> own <= UINT64_MAX -> memory l w = own) /\
  (forall view,
     _view l = Some view ->
     own + view_memory view w <= UINT64_MAX ->
     let links := Z.max 1 (view_linkCount view w) in
     let share := view_memory view w / links in
     memory l w = own + share /\
     own <= memory l w <= own + view_memory view w /\
     links * share <= view_memory view w /\
     (view_linkCount view w <= 1 -> share = view_memory view w)).
Proof.
  intros own. subst own.
  pose proof sizeof_nonneg as Hs.
  pose proof (meta_memory_nonneg (_meta l)) as Hm.
  unfold memory, size_t, two64, UINT64_MAX. split.
  - intros -> Hfit. apply Z.mod_small. lia.
  - intros view Hview Hfit. rewrite Hview.
    set (links := Z.max 1 (view_linkCount view w)).
    set (share := view_memory view w / links).
    pose proof (view_memory_nonneg view w) as Hv.
    assert (Hlinks : 1 <= links) by (subst links; lia).
    assert (Hshare : 0 <= share <= view_memory view w).
    { subst share. split.
      - apply Z.div_pos; lia.
      - apply Z.div_le_upper_bound; nia. }
    assert (Hmul : links * share <= view_memory view w).
    { subst share. apply Z.mul_div_le. lia. }
    rewrite (Z.mod_small (sizeof_IResearchLink + meta_memory (_meta l))) by lia.
    rewrite Z.mod_small by lia.
    repeat apply conj; try lia.
    intros Hone. subst share links.
    replace (Z.max 1 (view_linkCount view w)) with 1 by lia.
    apply Z.div_1_r.
Qed.

End Properties.

(** * The model at work on the reference implementation *)

Import Reference.

Example make_view5 : make 1 (Some coll) def_view5 s0 = (Some link_view5, s1).
Proof. reflexivity. Qed.

Example make_deferred9 : make 1 (Some coll) def_deferred9 s0 = (Some link_deferred9, s0).
Proof. reflexivity. Qed.

Example make_negative_id :
  make 1 (Some coll)
    (DObject [("view", DInt (-1)); ("fields", DArray [DString "a"])]) s0
  = (None, mkState (world s0) [EvLog DEVEL]).
Proof. reflexivity. Qed.

Example toVelocyPack_view5 :
  slice (toVelocyPack link_view5 newBuilder false false (world s1))
  = DObject [("fields", DArray [DString "a"]); ("id", DString "1");
             ("type", DString "iresearch"); ("view", DUInt 5)].
Proof. reflexivity. Qed.

Example unload_view5 :
  slice (toVelocyPack (snd (unload link_view5)) newBuilder false false (world s1))
  = slice (toVelocyPack link_view5 newBuilder false false (world s1)).
Proof. reflexivity. Qed.

(** ** The theorems at concrete inputs *)

Lemma make_binds_or_returns_null_witness :
  (fst (make 1 (Some coll) def_view5 s0) = Some link_view5 /\
   snd (make 1 (Some coll) def_view5 s0) = s1) /\
  (exists view, _view link_view5 = Some view) /\
  fst (make 1 None def_view5 s0) = None /\
  fst (make 1 (Some coll_detached) def_view5 s0) = None /\
  fst (make 1 (Some coll) def_view7 s0) = None /\
  fst (make 1 (Some coll) def_view6 s0) = None /\
  fst (make 1 (Some coll) def_view5 s1) = None /\
  fst (make 1 (Some coll) def_negative s0) = None.
Proof.
  repeat apply conj.
  - destruct (make_binds_or_returns_null (EC := errors) (EX := externals)
                1 (Some coll) def_view5 s0 eq_refl eq_refl) as (_ & H & _).
    exact (proj1 (H ["a"] "" db 5 ("iresearch", Some 5%positive) 5%positive
                    (world s0) (world s1)
                    eq_refl eq_refl eq_refl eq_refl eq_refl eq_refl)).
  - destruct (make_binds_or_returns_null (EC := errors) (EX := externals)
                1 (Some coll) def_view5 s0 eq_refl eq_refl) as (_ & H & _).
    exact (proj2 (H ["a"] "" db 5 ("iresearch", Some 5%positive) 5%positive
                    (world s0) (world s1)
                    eq_refl eq_refl eq_refl eq_refl eq_refl eq_refl)).
  - destruct (make_binds_or_returns_null (EC := errors) (EX := externals)
                1 (Some coll) def_view5 s0 eq_refl eq_refl) as (_ & Hmake & H & _).
    apply (H link_view5).
    exact (proj1 (Hmake ["a"] "" db 5 ("iresearch", Some 5%positive) 5%positive
                    (world s0) (world s1)
                    eq_refl eq_refl eq_refl eq_refl eq_refl eq_refl)).
  - destruct (make_binds_or_returns_null (EC := errors) (EX := externals)
                1 None def_view5 s0 eq_refl eq_refl) as (_ & _ & _ & H & _).
    exact (H eq_refl).
  - destruct (make_binds_or_returns_null (EC := errors) (EX := externals)
                1 (Some coll_detached) def_view5 s0 eq_refl eq_refl)
      as (_ & _ & _ & _ & H & _).
    exact (H coll_detached eq_refl eq_refl).
  - destruct (make_binds_or_returns_null (EC := errors) (EX := externals)
                1 (Some coll) def_view7 s0 eq_refl eq_refl)
      as (_ & _ & _ & _ & _ & H & _).
    exact (H db 7 (world s0) eq_refl eq_refl).
  - destruct (make_binds_or_returns_null (EC := errors) (EX := externals)
                1 (Some coll) def_view6 s0 eq_refl eq_refl)
      as (_ & _ & _ & _ & _ & _ & H & _).
    apply (H db 6 ("logger", Some 6%positive) (world s0) eq_refl eq_refl).
    discriminate.
  - destruct (make_binds_or_returns_null (EC := errors) (EX := externals)
                1 (Some coll) def_view5 s1 eq_refl eq_refl)
      as (_ & _ & _ & _ & _ & _ & _ & H & _).
    apply (H db 5 ("iresearch", Some 5%positive) (world s1) 5%positive ["a"] ""
             eq_refl eq_refl eq_refl eq_refl).
    discriminate.
  - destruct (make_binds_or_returns_null (EC := errors) (EX := externals)
                1 (Some coll) def_negative s0 eq_refl eq_refl)
      as (_ & _ & _ & _ & _ & _ & _ & _ & H).
    exact (H (foreign_exception "Number out of range") s0 eq_refl).
Defined.

Lemma insert_remove_contract_witness :
  insert link_deferred9 (Some tt) 7 DNull false s1
    = (Returned (mkResult 1238), s1) /\
  remove link_view5 None 7 DNull false s1 = (Returned (mkResult 10), s1) /\
  insert link_view5 (Some tt) 7 DNull false s1
    = (Returned (mkResult 0),
       mkState (mkStore [(5, 1)] [(5, 42, 7)] 0)
               (trace s1 ++ [EvViewInsert 5%positive tt 42 7 DNull])) /\
  insert link_view5 (Some tt) 0 DNull false s1
    = (Returned (mkResult 4),
       mkState (world s1) (trace s1 ++ [EvViewInsert 5%positive tt 42 0 DNull])).
Proof.
  repeat apply conj.
  - destruct (insert_remove_contract (EC := errors) (EX := externals) link_deferred9 (Some tt) 7 DNull false s1)
      as (H & _).
    apply H. left. reflexivity.
  - destruct (insert_remove_contract (EC := errors) (EX := externals) link_view5 None 7 DNull false s1)
      as (_ & H & _).
    apply H; [| reflexivity]. exists coll, 5%positive. split; reflexivity.
  - destruct (insert_remove_contract (EC := errors) (EX := externals) link_view5 (Some tt) 7 DNull false s1)
      as (_ & _ & H).
    exact (proj1 (H coll 5%positive tt eq_refl eq_refl eq_refl)).
  - destruct (insert_remove_contract (EC := errors) (EX := externals) link_view5 (Some tt) 0 DNull false s1)
      as (_ & _ & H).
    exact (proj1 (H coll 5%positive tt eq_refl eq_refl eq_refl)).
Defined.

Lemma batchInsert_contract_witness :
  trace (snd (batchInsert link_deferred9 (Some tt) [(7, DNull)] (Some tt) s1))
    = (trace s1 ++ [EvSetStatus tt 1238])%list /\
  trace (snd (batchInsert link_view5 None [(7, DNull)] (Some tt) s1))
    = (trace s1 ++ [EvSetStatus tt 10])%list /\
  trace (snd (batchInsert link_view5 (Some tt) [(7, DNull); (8, DNull)] (Some tt) s1))
    = (trace s1 ++ [EvViewInsertBatch 5%positive tt 42 [(7, DNull); (8, DNull)]])%list /\
  trace (snd (batchInsert link_view5 (Some tt) [(7, DNull); (0, DNull)] (Some tt) s1))
    = (trace s1 ++ [EvViewInsertBatch 5%positive tt 42 [(7, DNull); (0, DNull)];
                    EvSetStatus tt 4])%list.
Proof.
  repeat apply conj.
  - destruct (batchInsert_contract (EC := errors) (EX := externals) link_deferred9 (Some tt) [(7, DNull)] tt s1)
      as (H & _).
    apply H. left. reflexivity.
  - destruct (batchInsert_contract (EC := errors) (EX := externals) link_view5 None [(7, DNull)] tt s1) as (_ & H & _).
    apply H; [| reflexivity]. exists coll, 5%positive. split; reflexivity.
  - destruct (batchInsert_contract (EC := errors) (EX := externals) link_view5 (Some tt) [(7, DNull); (8, DNull)] tt s1)
      as (_ & _ & H).
    exact (proj1 (proj2 (H coll 5%positive tt eq_refl eq_refl eq_refl))).
  - destruct (batchInsert_contract (EC := errors) (EX := externals) link_view5 (Some tt) [(7, DNull); (0, DNull)] tt s1)
      as (_ & _ & H).
    exact (proj1 (proj2 (H coll 5%positive tt eq_refl eq_refl eq_refl))).
Defined.

Lemma unbound_checked_before_transaction_witness :
  fst (insert link_deferred9 None 7 DNull false s1) = Returned (mkResult 1238) /\
  fst (insert link_deferred9 None 7 DNull false s1) <> Returned (mkResult 10) /\
  trace (snd (batchInsert link_deferred9 None [(7, DNull)] (Some tt) s1))
    = (trace s1 ++ [EvSetStatus tt 1238])%list.
Proof.
  assert (Hu : unbound link_deferred9) by (left; reflexivity).
  assert (Hne : @TRI_ERROR_ARANGO_COLLECTION_NOT_LOADED errors
                <> @TRI_ERROR_BAD_PARAMETER errors) by discriminate.
  destruct (unbound_checked_before_transaction (EC := errors) (EX := externals) link_deferred9 7 DNull false
              [(7, DNull)] tt s1 Hu Hne) as ((H1 & H2) & _ & (H3 & _)).
  repeat apply conj; assumption.
Defined.

Lemma matchesDefinition_true_iff_witness :
  matchesDefinition link_view5 def_view5 = Returned true.
Proof.
  apply (matchesDefinition_true_iff link_view5 def_view5). split.
  - right. split; [reflexivity |].
    exists 5%positive, (DUInt 5), 5.
    repeat apply conj; try reflexivity. discriminate.
  - exists ["a"], "". split; reflexivity.
Defined.

Lemma unload_remembers_view_witness :
  _view link_view5 = Some 5%positive /\
  fst (unload link_view5) = 0 /\
  _defaultId (snd (unload link_view5)) = 5 /\
  _view (snd (unload link_view5)) = None /\
  unload (snd (unload link_view5)) = (0, snd (unload link_view5)) /\
  serialized_view_id (snd (unload link_view5)) = Some 5 /\
  toVelocyPack (snd (unload link_view5)) newBuilder false false (world s1)
  = toVelocyPack link_view5 newBuilder false false (world s1).
Proof.
  split; [reflexivity |].
  destruct (unload_remembers_view (EC := errors) (EX := externals)
              link_view5 5%positive eq_refl) as (H1 & H2 & H3 & H4 & H5 & _ & H7).
  repeat apply conj; try assumption.
  apply H7.
Defined.

Lemma make_skip_registration_witness :
  hasKey def_deferred9 SKIP_VIEW_REGISTRATION_FIELD = Returned true /\
  world (snd (make 1 (Some coll) def_deferred9 s0)) = world s0 /\
  (exists evs,
     trace (snd (make 1 (Some coll) def_deferred9 s0)) = (trace s0 ++ evs)%list /\
     no_lookup_no_view_call evs) /\
  (exists n,
     getUInt (DUInt 9) = Returned n /\
     fst (make 1 (Some coll) def_deferred9 s0)
     = Some (set_defaultId (IResearchLink_ctor 1 (Some coll) []) n)).
Proof.
  split; [reflexivity |].
  destruct (make_skip_registration (EC := errors) (EX := externals)
              1 (Some coll) def_deferred9 s0 eq_refl) as (H1 & H2 & _ & H4 & _).
  repeat apply conj; try assumption.
  destruct (H4 (DUInt 9) eq_refl eq_refl) as (_ & _ & H).
  exact (H [] "" eq_refl eq_refl).
Defined.

Lemma link_invariants_witness :
  index_flags (fst (run_ops sample_ops link_view5 s1)) /\
  serialized_view_id (set_defaultId link_view5 9) = Some 5 /\
  serialized_view_id link_deferred9 = Some 9 /\
  serialized_view_id link_fresh = None.
Proof.
  split; [| split; [| split]].
  - destruct (link_invariants (EC := errors) (EX := externals) link_view5
                sample_ops s1) as (_ & H & _).
    exact (proj2 (H 1 (Some coll) def_view5 s0 eq_refl)).
  - destruct (link_invariants (EC := errors) (EX := externals) link_view5 [] s1)
      as (_ & _ & _ & H & _).
    destruct (H 5%positive eq_refl) as (_ & H').
    exact (proj1 (H' 9 newBuilder false (world s1))).
  - destruct (link_invariants (EC := errors) (EX := externals) link_deferred9 [] s1)
      as (_ & _ & _ & _ & H & _).
    apply H; [reflexivity | discriminate].
  - destruct (link_invariants (EC := errors) (EX := externals) link_fresh [] s1)
      as (_ & _ & _ & _ & _ & H).
    exact (proj1 (H eq_refl eq_refl)).
Defined.

(** ** A link against its own definition, on the reference implementation *)

Lemma field_names_strings (m : list string) : field_names (map DString m) = Some m.
Proof.
  induction m as [| f m IH]; simpl.
  - reflexivity.
  - rewrite IH. reflexivity.
Qed.

Lemma fields_eq_refl (m : list string) : fields_eq m m = true.
Proof. unfold fields_eq. destruct (list_eq_dec string_dec m m); congruence. Qed.

Lemma doc_getInt_UInt (n : Z) : 0 <= n <= INT64_MAX -> doc_getInt (DUInt n) = Returned n.
Proof.
  intros [H0 H1]. simpl.
  destruct (Z.leb_spec 0 n); [| lia]. destruct (Z.leb_spec n INT64_MAX); [| lia].
  reflexivity.
Qed.

Lemma doc_getUInt_UInt (n : Z) : 0 <= n <= INT64_MAX -> doc_getUInt (DUInt n) = Returned n.
Proof.
  intros [H0 H1]. simpl.
  destruct (Z.leb_spec 0 n); [| lia].
  destruct (Z.leb_spec n UINT64_MAX); [reflexivity |].
  unfold INT64_MAX, UINT64_MAX in *. lia.
Qed.

(** The reference implementation keeps the contract of the document
    layer. *)

Lemma lookup_app_other (k k' : string) (v : Doc) (attributes : list (string * Doc)) :
  k <> k' -> lookup k (attributes ++ [(k', v)]) = lookup k attributes.
Proof.
  intros Hne. unfold lookup.
  induction attributes as [| [k0 v0] rest IH]; simpl.
  - destruct (String.eqb_spec k' k); [congruence | reflexivity].
  - destruct (String.eqb k0 k); [reflexivity | exact IH].
Qed.

Lemma lookup_app_same (k : string) (v : Doc) (attributes : list (string * Doc)) :
  lookup k (attributes ++ [(k, v)]) <> None.
Proof.
  unfold lookup.
  induction attributes as [| [k0 v0] rest IH]; simpl.
  - rewrite String.eqb_refl. discriminate.
  - destruct (String.eqb k0 k); [discriminate | exact IH].
Qed.

Lemma lookup_app_new (k : string) (v : Doc) (attributes : list (string * Doc)) :
  lookup k attributes = None -> lookup k (attributes ++ [(k, v)]) = Some v.
Proof.
  unfold lookup.
  induction attributes as [| [k0 v0] rest IH]; simpl.
  - rewrite String.eqb_refl. reflexivity.
  - destruct (String.eqb k0 k); [discriminate | exact IH].
Qed.

Lemma fresh_object_open (b : DocBuilder) :
  fresh_object b -> exists attributes, b = mkBuilder DNone (Some attributes).
Proof.
  induction 1 as [| k v b _ (attributes & ->) | m b _ (attributes & ->)].
  - exists []. reflexivity.
  - eexists. reflexivity.
  - eexists. reflexivity.
Qed.

Lemma reference_laws : DocumentLaws (CO := collaborators).
Proof.
  constructor.
  - intros k. reflexivity.
  - intros k v b Hb. destruct (fresh_object_open b Hb) as (attributes & ->). simpl.
    destruct (lookup k (attributes ++ [(k, doc_of_value v)])) eqn:Hl.
    + reflexivity.
    + exfalso. exact (lookup_app_same _ _ _ Hl).
  - intros k k' v b Hb Hne. destruct (fresh_object_open b Hb) as (attributes & ->).
    simpl. rewrite lookup_app_other by assumption. reflexivity.
  - intros k k' v b Hb Hne. destruct (fresh_object_open b Hb) as (attributes & ->).
    simpl. rewrite lookup_app_other by assumption. reflexivity.
  - intros k n b Hb Hnew [Hn0 Hn1].
    destruct (fresh_object_open b Hb) as (attributes & ->). simpl in *.
    assert (Hl : lookup k attributes = None)
      by (destruct (lookup k attributes); [discriminate | reflexivity]).
    rewrite (lookup_app_new k (DUInt n) attributes Hl).
    exists (DUInt n). repeat apply conj; try reflexivity.
    + simpl. destruct (Z.leb_spec 0 n); [| lia].
      destruct (Z.leb_spec n UINT64_MAX); [reflexivity | lia].
    + intros Hfit. apply doc_getInt_UInt. split; assumption.
  - intros m b Hb. destruct (fresh_object_open b Hb) as (attributes & ->). simpl.
    rewrite lookup_app_other by discriminate. reflexivity.
  - intros m. exists m, "". simpl. rewrite field_names_strings.
    split; [reflexivity | apply fields_eq_refl].
  - intros k v b Hb Hk. destruct (fresh_object_open b Hb) as (attributes & ->).
    simpl. rewrite lookup_app_other; [reflexivity |].
    simpl in Hk. destruct Hk as [<- | [<- | [<- | [<- | []]]]]; discriminate.
Qed.

Lemma matchesDefinition_own_definition_witness :
  matchesDefinition link_view5
    (slice (toVelocyPack link_view5 newBuilder true false (world s1)))
  = Returned true /\
  (exists e,
     matchesDefinition link_huge
       (slice (toVelocyPack link_huge newBuilder false false (world s1)))
     = Thrown e) /\
  matchesDefinition link_fresh
    (slice (toVelocyPack link_fresh newBuilder true false (world s1)))
  = Returned true /\
  matchesDefinition link_deferred9
    (slice (toVelocyPack link_deferred9 newBuilder false true (world s1)))
  = Returned false.
Proof.
  repeat apply conj.
  - destruct (matchesDefinition_own_definition (EX := externals) (DL := reference_laws)
                link_view5 true false (world s1)) as (H & _).
    apply (H 5%positive eq_refl). split; discriminate.
  - destruct (matchesDefinition_own_definition (EX := externals) (DL := reference_laws)
                link_huge false false (world s1)) as (_ & H & _).
    apply (H huge_view eq_refl). split; [reflexivity | discriminate].
  - destruct (matchesDefinition_own_definition (EX := externals) (DL := reference_laws)
                link_fresh true false (world s1)) as (_ & _ & H & _).
    exact (H eq_refl eq_refl).
  - destruct (matchesDefinition_own_definition (EX := externals) (DL := reference_laws)
                link_deferred9 false true (world s1)) as (_ & _ & _ & H).
    apply (H eq_refl). discriminate.
Defined.

(** The deferred link remembers view 9, serialises it, and does not match
    the resulting definition; neither does the link bound to view 5 once it
    has been unloaded. *)
Lemma unbound_link_does_not_match_own_definition :
  fst (make 1 (Some coll) def_deferred9 s0) = Some link_deferred9 /\
  _view link_deferred9 = None /\
  _defaultId link_deferred9 = 9 /\
  slice (toVelocyPack link_deferred9 newBuilder false false (world s0))
  = DObject [("fields", DArray []); ("id", DString "1");
             ("type", DString "iresearch"); ("view", DUInt 9)] /\
  matchesDefinition link_deferred9
    (slice (toVelocyPack link_deferred9 newBuilder false false (world s0)))
  = Returned false /\
  matchesDefinition link_deferred9
    (slice (toVelocyPack link_deferred9 newBuilder false false (world s0)))
  <> Returned true /\
  matchesDefinition (snd (unload link_view5))
    (slice (toVelocyPack (snd (unload link_view5)) newBuilder false false (world s1)))
  <> Returned true.
Proof.
  repeat apply conj; try reflexivity; discriminate.
Qed.

(** ** The further properties at concrete inputs *)

Lemma drop_contract_witness :
  drop link_deferred9 s1 = (Returned 1238, s1) /\
  drop link_view5 s1
  = (Returned 0, mkState (world s1) (trace s1 ++ [EvViewDrop 5%positive 42])).
Proof.
  split.
  - destruct (drop_contract (EC := errors) (EX := externals) link_deferred9 s1)
      as (H & _).
    apply H. left. reflexivity.
  - destruct (drop_contract (EC := errors) (EX := externals) link_view5 s1)
      as (_ & H).
    exact (H coll 5%positive eq_refl eq_refl).
Defined.

Lemma link_equals_bound_view_only_witness :
  operator_eq_view link_view5 5%positive = true /\
  operator_eq_view link_deferred9 9%positive = false.
Proof.
  split.
  - destruct (link_equals_bound_view_only (EC := errors) (EX := externals)
                link_view5 5%positive) as (H & _).
    apply H. exists 5%positive. split; reflexivity.
  - destruct (link_equals_bound_view_only (EC := errors) (EX := externals)
                link_deferred9 9%positive) as (_ & _ & _ & H).
    exact (H 1 (Some coll) def_deferred9 s0 eq_refl eq_refl).
Defined.

Lemma link_without_view_calls_nobody_witness :
  fst (run_ops quiet_ops link_deferred9 s1) = link_deferred9 /\
  exists evs,
    trace (snd (run_ops quiet_ops link_deferred9 s1)) = (trace s1 ++ evs)%list /\
    existsb is_call evs = false.
Proof.
  apply (link_without_view_calls_nobody (EC := errors) (EX := externals)
           quiet_ops link_deferred9 s1); reflexivity.
Defined.

Lemma matchesDefinition_presence_mismatch_witness :
  matchesDefinition link_deferred9 def_view5 = Returned false /\
  matchesDefinition link_view5 def_no_view = Returned false.
Proof.
  split.
  - apply (matchesDefinition_presence_mismatch link_deferred9 def_view5).
    left. split; reflexivity.
  - apply (matchesDefinition_presence_mismatch link_view5 def_no_view).
    right. split; [reflexivity |]. exists 5%positive. reflexivity.
Defined.

Lemma make_view_not_found_cases_witness :
  make 1 None def_view5 s0
    = (None, mkState (world s0) [EvLog FIXME; EvSetErrno 1211]) /\
  make 1 (Some coll) def_no_view s0
    = (None, mkState (world s0) [EvLog FIXME; EvSetErrno 1211]) /\
  make 1 (Some coll_detached) def_view5 s0
    = (None, mkState (world s0) [EvLog FIXME; EvSetErrno 1211]) /\
  make 1 (Some coll) def_view_name s0
    = (None, mkState (world s0) [EvLog FIXME; EvSetErrno 1211]).
Proof.
  repeat apply conj.
  - apply (make_view_not_found_cases (EC := errors) (EX := externals)
             1 None def_view5 s0 ["a"] "" eq_refl eq_refl).
    left. reflexivity.
  - apply (make_view_not_found_cases (EC := errors) (EX := externals)
             1 (Some coll) def_no_view s0 ["a"] "" eq_refl eq_refl).
    right. left. exists coll. split; reflexivity.
  - apply (make_view_not_found_cases (EC := errors) (EX := externals)
             1 (Some coll_detached) def_view5 s0 ["a"] "" eq_refl eq_refl).
    right. right. exists coll_detached, (DUInt 5).
    repeat apply conj; try reflexivity. left. reflexivity.
  - apply (make_view_not_found_cases (EC := errors) (EX := externals)
             1 (Some coll) def_view_name s0 [] "" eq_refl eq_refl).
    right. right. exists coll, (DString "five").
    repeat apply conj; try reflexivity. right. reflexivity.
Defined.

Lemma make_lookup_miss_is_silent_witness :
  make 1 (Some coll) def_view7 s0
    = (None, mkState (world s0) [EvLookupView db 7]) /\
  make 1 (Some coll) def_view6 s0
    = (None, mkState (world s0) [EvLookupView db 6]).
Proof.
  split.
  - apply (make_lookup_miss_is_silent (EC := errors) (EX := externals)
             1 (Some coll) def_view7 s0 [] "" db 7 None (world s0)
             eq_refl eq_refl eq_refl eq_refl eq_refl).
    left. reflexivity.
  - apply (make_lookup_miss_is_silent (EC := errors) (EX := externals)
             1 (Some coll) def_view6 s0 [] "" db 6
             (Some ("logger", Some 6%positive)) (world s0)
             eq_refl eq_refl eq_refl eq_refl eq_refl).
    right. exists ("logger", Some 6%positive). split; [reflexivity | discriminate].
Defined.

Lemma deferred_link_serialises_its_id_witness :
  (exists l, fst (make 1 (Some coll) def_deferred9 s0) = Some l /\
             _defaultId l = 9 /\ serialized_view_id l = Some 9) /\
  (exists l, fst (make 1 (Some coll) def_deferred0 s0) = Some l /\
             _defaultId l = 0 /\ serialized_view_id l = None).
Proof.
  split.
  - destruct (deferred_link_serialises_its_id (EC := errors) (EX := externals)
                1 (Some coll) def_deferred9 s0 [] "" eq_refl eq_refl) as (H & _).
    destruct (H (DUInt 9) 9 eq_refl eq_refl eq_refl eq_refl)
      as (l & H1 & H2 & H3 & _).
    exists l. repeat apply conj; assumption.
  - destruct (deferred_link_serialises_its_id (EC := errors) (EX := externals)
                1 (Some coll) def_deferred0 s0 [] "" eq_refl eq_refl) as (H & _).
    destruct (H (DUInt 0) 0 eq_refl eq_refl eq_refl eq_refl)
      as (l & H1 & H2 & H3 & _).
    exists l. repeat apply conj; assumption.
Defined.

Lemma made_link_matches_its_definition_witness :
  matchesDefinition link_view5 def_view5 = Returned true.
Proof.
  apply (made_link_matches_its_definition (EC := errors) (EX := externals)
           1 (Some coll) def_view5 s0 link_view5 eq_refl eq_refl).
  - intros db' viewId lv w1 view [= <- <-] [= <- _] [= <-]. reflexivity.
  - reflexivity.
Defined.

Lemma deferred_link_against_its_definition_witness :
  matchesDefinition link_deferred9 def_deferred9 = Returned false.
Proof.
  destruct (deferred_link_against_its_definition (EC := errors) (EX := externals)
              1 (Some coll) def_deferred9 s0 link_deferred9 eq_refl eq_refl)
    as (H & _).
  exact (H eq_refl).
Defined.

Lemma EnhanceJsonIResearchLink_contract_witness :
  EnhanceJsonIResearchLink (EX := externals) (BF := failures)
    def_bad_fields open_builder true s0
    = ((10, open_builder), mkState (world s0) [EvLog FIXME]) /\
  EnhanceJsonIResearchLink (EX := externals) (BF := failures)
    def_view5 open_builder true s0
    = ((0, mkBuilder DNone
             (Some [("view", DUInt 5); ("fields", DArray [DString "a"])])), s0) /\
  EnhanceJsonIResearchLink (EX := externals) (BF := failures)
    def_view5 closed_builder true s0
    = ((4, closed_builder), mkState (world s0) [EvLog FIXME]) /\
  EnhanceJsonIResearchLink (EX := externals) (BF := failures)
    def_no_view closed_builder false s0
    = ((4, closed_builder), mkState (world s0) [EvLog FIXME]) /\
  EnhanceJsonIResearchLink (EX := idle_externals) (BF := strict_failures)
    DNull open_builder true idle_state
    = ((4, open_builder), mkState (EX := idle_externals) tt [EvLog FIXME]).
Proof.
  repeat apply conj.
  - destruct (EnhanceJsonIResearchLink_contract (EX := externals) (BF := failures)
                def_bad_fields open_builder true s0) as (_ & H & _).
    exact (H [] "fields" eq_refl).
  - destruct (EnhanceJsonIResearchLink_contract (EX := externals) (BF := failures)
                def_view5 open_builder true s0) as (_ & _ & H & _).
    assert (Hread : hasKey def_view5 VIEW_ID_FIELD = Returned false \/
                    (hasKey def_view5 VIEW_ID_FIELD = Returned true /\
                     exists identifier,
                       get def_view5 VIEW_ID_FIELD = Returned identifier)).
    { right. split; [reflexivity |]. exists (DUInt 5). reflexivity. }
    destruct (H ["a"] "" eq_refl Hread) as (Hok & _).
    exact (Hok eq_refl eq_refl).
  - destruct (EnhanceJsonIResearchLink_contract (EX := externals) (BF := failures)
                def_view5 closed_builder true s0) as (_ & _ & H & _).
    assert (Hread : hasKey def_view5 VIEW_ID_FIELD = Returned false \/
                    (hasKey def_view5 VIEW_ID_FIELD = Returned true /\
                     exists identifier,
                       get def_view5 VIEW_ID_FIELD = Returned identifier)).
    { right. split; [reflexivity |]. exists (DUInt 5). reflexivity. }
    destruct (H ["a"] "" eq_refl Hread) as (_ & Hadd & _).
    exact (Hadd (foreign_exception "Need open Object") closed_builder eq_refl).
  - destruct (EnhanceJsonIResearchLink_contract (EX := externals) (BF := failures)
                def_no_view closed_builder false s0) as (_ & _ & H & _).
    assert (Hread : hasKey def_no_view VIEW_ID_FIELD = Returned false \/
                    (hasKey def_no_view VIEW_ID_FIELD = Returned true /\
                     exists identifier,
                       get def_no_view VIEW_ID_FIELD = Returned identifier)).
    { left. reflexivity. }
    destruct (H ["a"] "" eq_refl Hread) as (_ & _ & Hjson).
    exact (Hjson (foreign_exception "Need open Object") closed_builder
             eq_refl eq_refl).
  - destruct (EnhanceJsonIResearchLink_contract
                (EX := idle_externals) (BF := strict_failures)
                DNull open_builder true idle_state) as (_ & _ & _ & H & _).
    apply (H (foreign_exception "Expecting type Object")). left. reflexivity.
Defined.

Lemma make_accepts_what_enhance_accepts_witness :
  EnhanceJsonIResearchLink (EX := externals) (BF := failures)
    def_view5 open_builder true s1
    = ((0, mkBuilder DNone
             (Some [("view", DUInt 5); ("fields", DArray [DString "a"])])), s1) /\
  EnhanceJsonIResearchLink (EX := externals) (BF := failures)
    def_view5 closed_builder true s1
    = ((4, closed_builder), mkState (world s1) (trace s1 ++ [EvLog FIXME])).
Proof.
  destruct (make_accepts_what_enhance_accepts (EX := externals) (BF := failures)
              1 (Some coll) def_view5 s0 link_view5 open_builder true s1 eq_refl)
    as (Hok & _).
  destruct (make_accepts_what_enhance_accepts (EX := externals) (BF := failures)
              1 (Some coll) def_view5 s0 link_view5 closed_builder true s1 eq_refl)
    as (_ & Hadd & _).
  split.
  - exact (Hok eq_refl eq_refl).
  - exact (Hadd (foreign_exception "Need open Object") closed_builder eq_refl).
Defined.

Lemma memory_bounds_witness :
  memory link_deferred9 w_shared = 128 /\
  memory link_view5 w_shared = 232 /\
  2 * (memory link_view5 w_shared - 136) <= 192.
Proof.
  destruct (memory_bounds (EX := externals) (FP := footprint)
              link_deferred9 w_shared) as (H0 & _).
  destruct (memory_bounds (EX := externals) (FP := footprint)
              link_view5 w_shared) as (_ & H5).
  assert (Hfit : 128 + 8 * Z.of_nat (List.length ["a"]) + 192 <= UINT64_MAX)
    by (vm_compute; discriminate).
  destruct (H5 5%positive eq_refl Hfit) as (Hmem & _ & Hshares & _).
  repeat apply conj.
  - apply H0; [reflexivity | vm_compute; discriminate].
  - exact Hmem.
  - rewrite Hmem. exact Hshares.
Defined.
